(** * A verification development for the typed DocumentDB client surface

    [src/index.d.ts] declares the surface of a DocumentDB client: the option
    records, the error and iterator interfaces and the [DocumentClient]
    class.  The first part of this file embeds that declared surface as
    data (one record per method declaration, in source order) and proves
    properties about it by computation.

    The declaration file holds no implementation of the request engine the
    spec describes (resource links, option composition, request executor
    with retries, feed iterator, session tracker).  The second part models
    that engine from the spec's words; each such definition says so in its
    doc comment. *)

From Stdlib Require Import String Ascii List Bool Arith Lia ZArith.
From stdpp Require Import base gmap strings.
Import ListNotations.
Open Scope string_scope.

(* ------------------------------------------------------------------ *)
(** ** The declared surface of [DocumentClient] *)
(* ------------------------------------------------------------------ *)

Module Surface.

(** A formal parameter [name?: type] of a method signature. *)
Record Param := mkParam {
  p_name : string;
  p_optional : bool;
  p_type : string
}.

(** One overload [public name<tparams>(params): ret;]. *)
Record Decl := mkDecl {
  d_name : string;
  d_tparams : list string;
  d_params : list Param;
  d_ret : string
}.

(** The methods of [export class DocumentClient], every overload, in
    source order (lines 328-936 of src/index.d.ts). *)
Definition DocumentClient : list Decl := [
    (* line 328 *)
    mkDecl "createAttachment" []
      [mkParam "documentSelfLink" false "string";
       mkParam "attachment" false "Attachment";
       mkParam "options" false "RequestOptions";
       mkParam "callback" false "RequestCallback<AttachmentMeta>"]
      "void";
    (* line 329 *)
    mkDecl "createAttachment" []
      [mkParam "documentSelfLink" false "string";
       mkParam "attachment" false "Attachment";
       mkParam "callback" false "RequestCallback<AttachmentMeta>"]
      "void";
    (* line 339 *)
    mkDecl "createAttachmentAndUploadMedia" []
      [mkParam "documentSelfLink" false "string";
       mkParam "attachment" false "Attachment";
       mkParam "options" false "MediaOptions";
       mkParam "callback" false "RequestCallback<AttachmentMeta>"]
      "void";
    (* line 340 *)
    mkDecl "createAttachmentAndUploadMedia" []
      [mkParam "documentSelfLink" false "string";
       mkParam "attachment" false "Attachment";
       mkParam "callback" false "RequestCallback<AttachmentMeta>"]
      "void";
    (* line 355 *)
    mkDecl "createCollection" []
      [mkParam "databaseLink" false "string";
       mkParam "body" false "Collection";
       mkParam "options" false "RequestOptions";
       mkParam "callback" false "RequestCallback<CollectionMeta>"]
      "void";
    (* line 356 *)
    mkDecl "createCollection" []
      [mkParam "databaseLink" false "string";
       mkParam "body" false "Collection";
       mkParam "callback" false "RequestCallback<CollectionMeta>"]
      "void";
    (* line 368 *)
    mkDecl "createDatabase" []
      [mkParam "body" false "UniqueId";
       mkParam "options" false "RequestOptions";
       mkParam "callback" false "RequestCallback<DatabaseMeta>"]
      "void";
    (* line 369 *)
    mkDecl "createDatabase" []
      [mkParam "body" false "UniqueId";
       mkParam "callback" false "RequestCallback<DatabaseMeta>"]
      "void";
    (* line 382 *)
    mkDecl "createDocument" ["TDocument"]
      [mkParam "collectionSelfLink" false "string";
       mkParam "document" false "NewDocument<TDocument>";
       mkParam "options" false "RequestOptions";
       mkParam "callback" false "RequestCallback<RetrievedDocument<TDocument>>"]
      "void";
    (* line 383 *)
    mkDecl "createDocument" ["TDocument"]
      [mkParam "collectionSelfLink" false "string";
       mkParam "document" false "NewDocument<TDocument>";
       mkParam "callback" false "RequestCallback<RetrievedDocument<TDocument>>"]
      "void";
    (* line 395 *)
    mkDecl "createPermission" []
      [mkParam "collectionLink" false "string";
       mkParam "permission" false "Permission";
       mkParam "options" false "RequestOptions";
       mkParam "callback" false "RequestCallback<PermissionMeta>"]
      "void";
    (* line 396 *)
    mkDecl "createPermission" []
      [mkParam "collectionLink" false "string";
       mkParam "permission" false "Permission";
       mkParam "callback" false "RequestCallback<PermissionMeta>"]
      "void";
    (* line 410 *)
    mkDecl "createStoredProcedure" []
      [mkParam "collectionLink" false "string";
       mkParam "procedure" false "Procedure";
       mkParam "options" false "RequestOptions";
       mkParam "callback" false "RequestCallback<ProcedureMeta>"]
      "void";
    (* line 411 *)
    mkDecl "createStoredProcedure" []
      [mkParam "collectionLink" false "string";
       mkParam "procedure" false "Procedure";
       mkParam "callback" false "RequestCallback<ProcedureMeta>"]
      "void";
    (* line 424 *)
    mkDecl "createTrigger" []
      [mkParam "collectionLink" false "string";
       mkParam "trigger" false "Trigger";
       mkParam "options" false "RequestOptions";
       mkParam "callback" false "RequestCallback<TriggerMeta>"]
      "void";
    (* line 425 *)
    mkDecl "createTrigger" []
      [mkParam "collectionLink" false "string";
       mkParam "trigger" false "Trigger";
       mkParam "callback" false "RequestCallback<TriggerMeta>"]
      "void";
    (* line 434 *)
    mkDecl "createUser" []
      [mkParam "databaseLink" false "string";
       mkParam "user" false "User";
       mkParam "options" false "RequestOptions";
       mkParam "callback" false "RequestCallback<UserMeta>"]
      "void";
    (* line 435 *)
    mkDecl "createUser" []
      [mkParam "databaseLink" false "string";
       mkParam "user" false "User";
       mkParam "callback" false "RequestCallback<UserMeta>"]
      "void";
    (* line 448 *)
    mkDecl "createUserDefinedFunction" []
      [mkParam "collectionLink" false "string";
       mkParam "udf" false "UserDefinedFunction";
       mkParam "options" false "RequestOptions";
       mkParam "callback" false "RequestCallback<UserDefinedFunctionMeta>"]
      "void";
    (* line 449 *)
    mkDecl "createUserDefinedFunction" []
      [mkParam "collectionLink" false "string";
       mkParam "udf" false "UserDefinedFunction";
       mkParam "callback" false "RequestCallback<UserDefinedFunctionMeta>"]
      "void";
    (* line 457 *)
    mkDecl "deleteAttachment" []
      [mkParam "attachmentLink" false "string";
       mkParam "options" false "RequestOptions";
       mkParam "callback" false "RequestCallback<void>"]
      "void";
    (* line 458 *)
    mkDecl "deleteAttachment" []
      [mkParam "attachmentLink" false "string";
       mkParam "callback" false "RequestCallback<void>"]
      "void";
    (* line 466 *)
    mkDecl "deleteCollection" []
      [mkParam "collectionLink" false "string";
       mkParam "options" false "RequestOptions";
       mkParam "callback" false "RequestCallback<void>"]
      "void";
    (* line 467 *)
    mkDecl "deleteCollection" []
      [mkParam "collectionLink" false "string";
       mkParam "callback" false "RequestCallback<void>"]
      "void";
    (* line 475 *)
    mkDecl "deleteConflict" []
      [mkParam "ConflictLink" false "string";
       mkParam "options" false "RequestOptions";
       mkParam "callback" false "RequestCallback<void>"]
      "void";
    (* line 476 *)
    mkDecl "deleteConflict" []
      [mkParam "ConflictLink" false "string";
       mkParam "callback" false "RequestCallback<void>"]
      "void";
    (* line 484 *)
    mkDecl "deleteDatabase" []
      [mkParam "databaseLink" false "string";
       mkParam "options" false "RequestOptions";
       mkParam "callback" false "RequestCallback<void>"]
      "void";
    (* line 485 *)
    mkDecl "deleteDatabase" []
      [mkParam "databaseLink" false "string";
       mkParam "callback" false "RequestCallback<void>"]
      "void";
    (* line 493 *)
    mkDecl "deleteDocument" []
      [mkParam "documentLink" false "string";
       mkParam "options" false "RequestOptions";
       mkParam "callback" false "RequestCallback<void>"]
      "void";
    (* line 494 *)
    mkDecl "deleteDocument" []
      [mkParam "documentLink" false "string";
       mkParam "callback" false "RequestCallback<void>"]
      "void";
    (* line 502 *)
    mkDecl "deletePermission" []
      [mkParam "permissionLink" false "string";
       mkParam "options" false "RequestOptions";
       mkParam "callback" false "RequestCallback<void>"]
      "void";
    (* line 503 *)
    mkDecl "deletePermission" []
      [mkParam "permissionLink" false "string";
       mkParam "callback" false "RequestCallback<void>"]
      "void";
    (* line 511 *)
    mkDecl "deleteStoredProcedure" []
      [mkParam "procedureLink" false "string";
       mkParam "options" false "RequestOptions";
       mkParam "callback" false "RequestCallback<void>"]
      "void";
    (* line 512 *)
    mkDecl "deleteStoredProcedure" []
      [mkParam "procedureLink" false "string";
       mkParam "callback" false "RequestCallback<void>"]
      "void";
    (* line 520 *)
    mkDecl "deleteTrigger" []
      [mkParam "triggerLink" false "string";
       mkParam "options" false "RequestOptions";
       mkParam "callback" false "RequestCallback<void>"]
      "void";
    (* line 521 *)
    mkDecl "deleteTrigger" []
      [mkParam "triggerLink" false "string";
       mkParam "callback" false "RequestCallback<void>"]
      "void";
    (* line 529 *)
    mkDecl "deleteUser" []
      [mkParam "userLink" false "string";
       mkParam "options" false "RequestOptions";
       mkParam "callback" false "RequestCallback<void>"]
      "void";
    (* line 530 *)
    mkDecl "deleteUser" []
      [mkParam "userLink" false "string";
       mkParam "callback" false "RequestCallback<void>"]
      "void";
    (* line 538 *)
    mkDecl "deleteUserDefinedFunction" []
      [mkParam "udfLink" false "string";
       mkParam "options" false "RequestOptions";
       mkParam "callback" false "RequestCallback<void>"]
      "void";
    (* line 539 *)
    mkDecl "deleteUserDefinedFunction" []
      [mkParam "udfLink" false "string";
       mkParam "callback" false "RequestCallback<void>"]
      "void";
    (* line 547 *)
    mkDecl "executeStoredProcedure" ["TDocument"]
      [mkParam "procedureLink" false "string";
       mkParam "callback" false "RequestCallback<TDocument>"]
      "void";
    (* line 548 *)
    mkDecl "executeStoredProcedure" ["TDocument"]
      [mkParam "procedureLink" false "string";
       mkParam "params" false "any[]";
       mkParam "callback" false "RequestCallback<TDocument>"]
      "void";
    (* line 549 *)
    mkDecl "executeStoredProcedure" ["TDocument"]
      [mkParam "procedureLink" false "string";
       mkParam "options" false "RequestOptions";
       mkParam "callback" false "RequestCallback<TDocument>"]
      "void";
    (* line 550 *)
    mkDecl "executeStoredProcedure" ["TDocument"]
      [mkParam "procedureLink" false "string";
       mkParam "params" false "any[]";
       mkParam "options" false "RequestOptions";
       mkParam "callback" false "RequestCallback<TDocument>"]
      "void";
    (* line 558 *)
    mkDecl "queryDatabases" []
      [mkParam "query" false "string | SqlQuerySpec"]
      "QueryIterator<DatabaseMeta>";
    (* line 567 *)
    mkDecl "queryCollections" []
      [mkParam "databaseLink" false "string";
       mkParam "query" false "string | SqlQuerySpec"]
      "QueryIterator<CollectionMeta>";
    (* line 576 *)
    mkDecl "queryStoredProcedures" []
      [mkParam "collectionLink" false "string";
       mkParam "query" false "string | SqlQuerySpec"]
      "QueryIterator<ProcedureMeta>";
    (* line 585 *)
    mkDecl "queryDocuments" ["TDocument"]
      [mkParam "collectionLink" false "string";
       mkParam "query" false "string | SqlQuerySpec";
       mkParam "options" true "FeedOptions"]
      "QueryIterator<RetrievedDocument<TDocument>>";
    (* line 594 *)
    mkDecl "queryTriggers" []
      [mkParam "collectionLink" false "string";
       mkParam "query" false "string | SqlQuerySpec";
       mkParam "options" true "FeedOptions"]
      "QueryIterator<TriggerMeta>";
    (* line 603 *)
    mkDecl "replaceAttachment" []
      [mkParam "attachmentLink" false "string";
       mkParam "attachment" false "Attachment";
       mkParam "options" false "RequestOptions";
       mkParam "callback" false "RequestCallback<AttachmentMeta>"]
      "void";
    (* line 604 *)
    mkDecl "replaceAttachment" []
      [mkParam "attachmentLink" false "string";
       mkParam "attachment" false "Attachment";
       mkParam "callback" false "RequestCallback<AttachmentMeta>"]
      "void";
    (* line 613 *)
    mkDecl "replaceCollection" []
      [mkParam "collectionLink" false "string";
       mkParam "collection" false "Collection";
       mkParam "options" false "RequestOptions";
       mkParam "callback" false "RequestCallback<CollectionMeta>"]
      "void";
    (* line 614 *)
    mkDecl "replaceCollection" []
      [mkParam "collectionLink" false "string";
       mkParam "collection" false "Collection";
       mkParam "callback" false "RequestCallback<CollectionMeta>"]
      "void";
    (* line 623 *)
    mkDecl "replaceDocument" ["TDocument"]
      [mkParam "documentLink" false "string";
       mkParam "document" false "NewDocument<TDocument>";
       mkParam "options" false "RequestOptions";
       mkParam "callback" false "RequestCallback<RetrievedDocument<TDocument>>"]
      "void";
    (* line 624 *)
    mkDecl "replaceDocument" ["TDocument"]
      [mkParam "documentLink" false "string";
       mkParam "document" false "NewDocument<TDocument>";
       mkParam "callback" false "RequestCallback<RetrievedDocument<TDocument>>"]
      "void";
    (* line 632 *)
    mkDecl "replaceOffer" []
      [mkParam "offerLink" false "string";
       mkParam "offer" false "Offer";
       mkParam "callback" false "RequestCallback<Offer>"]
      "void";
    (* line 641 *)
    mkDecl "replacePermission" []
      [mkParam "permissionLink" false "string";
       mkParam "permission" false "Permission";
       mkParam "options" false "RequestOptions";
       mkParam "callback" false "RequestCallback<Permission>"]
      "void";
    (* line 642 *)
    mkDecl "replacePermission" []
      [mkParam "permissionLink" false "string";
       mkParam "permission" false "Permission";
       mkParam "callback" false "RequestCallback<Permission>"]
      "void";
    (* line 651 *)
    mkDecl "replaceStoredProcedure" []
      [mkParam "procedureLink" false "string";
       mkParam "procedure" false "Procedure";
       mkParam "options" false "RequestOptions";
       mkParam "callback" false "RequestCallback<ProcedureMeta>"]
      "void";
    (* line 652 *)
    mkDecl "replaceStoredProcedure" []
      [mkParam "procedureLink" false "string";
       mkParam "procedure" false "Procedure";
       mkParam "callback" false "RequestCallback<ProcedureMeta>"]
      "void";
    (* line 661 *)
    mkDecl "replaceTrigger" []
      [mkParam "triggerLink" false "string";
       mkParam "trigger" false "Trigger";
       mkParam "options" false "RequestOptions";
       mkParam "callback" false "RequestCallback<Trigger>"]
      "void";
    (* line 662 *)
    mkDecl "replacetrigger" []
      [mkParam "TriggerLink" false "string";
       mkParam "trigger" false "Trigger";
       mkParam "callback" false "RequestCallback<Trigger>"]
      "void";
    (* line 671 *)
    mkDecl "replaceUser" []
      [mkParam "userLink" false "string";
       mkParam "user" false "User";
       mkParam "options" false "RequestOptions";
       mkParam "callback" false "RequestCallback<UserMeta>"]
      "void";
    (* line 672 *)
    mkDecl "replaceUser" []
      [mkParam "userLink" false "string";
       mkParam "user" false "User";
       mkParam "callback" false "RequestCallback<UserMeta>"]
      "void";
    (* line 682 *)
    mkDecl "replaceUserDefinedFunction" []
      [mkParam "udfLink" false "string";
       mkParam "udf" false "UserDefinedFunction";
       mkParam "options" false "RequestOptions";
       mkParam "callback" false "RequestCallback<UserDefinedFunctionMeta>"]
      "void";
    (* line 683 *)
    mkDecl "replaceUserDefinedFunction" []
      [mkParam "udfLink" false "string";
       mkParam "udf" false "UserDefinedFunction";
       mkParam "callback" false "RequestCallback<UserDefinedFunctionMeta>"]
      "void";
    (* line 691 *)
    mkDecl "updateMedia" []
      [mkParam "mediaLink" false "string";
       mkParam "readableStream" false "any";
       mkParam "options" false "MediaOptions";
       mkParam "callback" false "RequestCallback<MediaMeta>"]
      "void";
    (* line 692 *)
    mkDecl "updateMedia" []
      [mkParam "mediaLink" false "string";
       mkParam "readableStream" false "any";
       mkParam "callback" false "RequestCallback<MediaMeta>"]
      "void";
    (* line 702 *)
    mkDecl "readAttachment" []
      [mkParam "attachmentLink" false "string";
       mkParam "options" false "RequestOptions";
       mkParam "callback" false "RequestCallback<AttachmentMeta>"]
      "void";
    (* line 703 *)
    mkDecl "readAttachment" []
      [mkParam "attachmentLink" false "string";
       mkParam "callback" false "RequestCallback<AttachmentMeta>"]
      "void";
    (* line 712 *)
    mkDecl "readDatabase" []
      [mkParam "databaseLink" false "string";
       mkParam "options" false "RequestOptions";
       mkParam "callback" false "RequestCallback<DatabaseMeta>"]
      "void";
    (* line 713 *)
    mkDecl "readDatabase" []
      [mkParam "databaseLink" false "string";
       mkParam "callback" false "RequestCallback<DatabaseMeta>"]
      "void";
    (* line 723 *)
    mkDecl "readCollection" []
      [mkParam "collectionLink" false "string";
       mkParam "options" false "RequestOptions";
       mkParam "callback" false "RequestCallback<CollectionMeta>"]
      "void";
    (* line 724 *)
    mkDecl "readCollection" []
      [mkParam "collectionLink" false "string";
       mkParam "callback" false "RequestCallback<CollectionMeta>"]
      "void";
    (* line 734 *)
    mkDecl "readDocument" ["TDocument"]
      [mkParam "documentLink" false "string";
       mkParam "options" false "RequestOptions";
       mkParam "callback" false "RequestCallback<RetrievedDocument<TDocument>>"]
      "void";
    (* line 735 *)
    mkDecl "readDocument" ["TDocument"]
      [mkParam "documentLink" false "string";
       mkParam "callback" false "RequestCallback<RetrievedDocument<TDocument>>"]
      "void";
    (* line 744 *)
    mkDecl "readMedia" []
      [mkParam "mediaLink" false "string";
       mkParam "callback" false "RequestCallback<MediaMeta>"]
      "void";
    (* line 753 *)
    mkDecl "readOffer" []
      [mkParam "offerLink" false "string";
       mkParam "callback" false "RequestCallback<OfferMeta>"]
      "void";
    (* line 763 *)
    mkDecl "readPermission" []
      [mkParam "permissionLink" false "string";
       mkParam "options" false "RequestOptions";
       mkParam "callback" false "RequestCallback<PermissionMeta>"]
      "void";
    (* line 764 *)
    mkDecl "readPermission" []
      [mkParam "permissionLink" false "string";
       mkParam "callback" false "RequestCallback<PermissionMeta>"]
      "void";
    (* line 774 *)
    mkDecl "readUser" []
      [mkParam "userLink" false "string";
       mkParam "options" false "RequestOptions";
       mkParam "callback" false "RequestCallback<UserMeta>"]
      "void";
    (* line 775 *)
    mkDecl "readUser" []
      [mkParam "userLink" false "string";
       mkParam "callback" false "RequestCallback<UserMeta>"]
      "void";
    (* line 785 *)
    mkDecl "readTrigger" []
      [mkParam "triggerLink" false "string";
       mkParam "options" false "RequestOptions";
       mkParam "callback" false "RequestCallback<TriggerMeta>"]
      "void";
    (* line 786 *)
    mkDecl "readTrigger" []
      [mkParam "triggerLink" false "string";
       mkParam "callback" false "RequestCallback<TriggerMeta>"]
      "void";
    (* line 796 *)
    mkDecl "readUserDefinedFunction" []
      [mkParam "udfLink" false "string";
       mkParam "options" false "RequestOptions";
       mkParam "callback" false "RequestCallback<UserDefinedFunctionMeta>"]
      "void";
    (* line 797 *)
    mkDecl "readUserDefinedFunction" []
      [mkParam "udfLink" false "string";
       mkParam "callback" false "RequestCallback<UserDefinedFunctionMeta>"]
      "void";
    (* line 807 *)
    mkDecl "readStoredProcedure" []
      [mkParam "sprocLink" false "string";
       mkParam "options" false "RequestOptions";
       mkParam "callback" false "RequestCallback<ProcedureMeta>"]
      "void";
    (* line 808 *)
    mkDecl "readStoredProcedure" []
      [mkParam "sprocLink" false "string";
       mkParam "callback" false "RequestCallback<ProcedureMeta>"]
      "void";
    (* line 818 *)
    mkDecl "readConflict" []
      [mkParam "conflictLink" false "string";
       mkParam "options" false "RequestOptions";
       mkParam "callback" false "RequestCallback<ConflictMeta>"]
      "void";
    (* line 819 *)
    mkDecl "readConflict" []
      [mkParam "conflictLink" false "string";
       mkParam "callback" false "RequestCallback<ConflictMeta>"]
      "void";
    (* line 827 *)
    mkDecl "readDatabases" []
      [mkParam "options" false "FeedOptions"]
      "QueryIterator<DatabaseMeta>";
    (* line 828 *)
    mkDecl "readDatabases" []
      []
      "QueryIterator<DatabaseMeta>";
    (* line 838 *)
    mkDecl "readCollections" []
      [mkParam "databaseLink" false "string";
       mkParam "options" false "FeedOptions"]
      "QueryIterator<CollectionMeta>";
    (* line 839 *)
    mkDecl "readCollections" []
      [mkParam "databaseLink" false "string"]
      "QueryIterator<CollectionMeta>";
    (* line 849 *)
    mkDecl "readDocuments" ["TDocument"]
      [mkParam "collectionLink" false "string";
       mkParam "options" false "FeedOptions"]
      "QueryIterator<RetrievedDocument<TDocument>>";
    (* line 850 *)
    mkDecl "readDocuments" ["TDocument"]
      [mkParam "collectionLink" false "string"]
      "QueryIterator<RetrievedDocument<TDocument>>";
    (* line 860 *)
    mkDecl "readAttachments" []
      [mkParam "documentLink" false "string";
       mkParam "options" false "FeedOptions"]
      "QueryIterator<AttachmentMeta>";
    (* line 861 *)
    mkDecl "readAttachments" []
      [mkParam "documentLink" false "string"]
      "QueryIterator<AttachmentMeta>";
    (* line 871 *)
    mkDecl "readUsers" []
      [mkParam "databaseLink" false "string";
       mkParam "options" false "FeedOptions"]
      "QueryIterator<UserMeta>";
    (* line 872 *)
    mkDecl "readUsers" []
      [mkParam "databaseLink" false "string"]
      "QueryIterator<UserMeta>";
    (* line 881 *)
    mkDecl "readOffers" []
      [mkParam "options" false "FeedOptions"]
      "void";
    (* line 891 *)
    mkDecl "readPermissions" []
      [mkParam "userLink" false "string";
       mkParam "options" false "FeedOptions"]
      "QueryIterator<PermissionMeta>";
    (* line 892 *)
    mkDecl "readPermissions" []
      [mkParam "userLink" false "string"]
      "QueryIterator<PermissionMeta>";
    (* line 902 *)
    mkDecl "readTriggers" []
      [mkParam "collectionLink" false "string";
       mkParam "options" false "FeedOptions"]
      "QueryIterator<TriggerMeta>";
    (* line 903 *)
    mkDecl "readTriggers" []
      [mkParam "collectionLink" false "string"]
      "QueryIterator<TriggerMeta>";
    (* line 913 *)
    mkDecl "readUserDefinedFunctions" []
      [mkParam "collectionLink" false "string";
       mkParam "options" false "FeedOptions"]
      "QueryIterator<UserDefinedFunctionMeta>";
    (* line 914 *)
    mkDecl "readUserDefinedFunctions" []
      [mkParam "collectionLink" false "string"]
      "QueryIterator<UserDefinedFunctionMeta>";
    (* line 924 *)
    mkDecl "readStoredProcedures" []
      [mkParam "collectionLink" false "string";
       mkParam "options" false "FeedOptions"]
      "QueryIterator<ProcedureMeta>";
    (* line 925 *)
    mkDecl "readStoredProcedures" []
      [mkParam "collectionLink" false "string"]
      "QueryIterator<ProcedureMeta>";
    (* line 935 *)
    mkDecl "readConflicts" []
      [mkParam "collectionLink" false "string";
       mkParam "options" false "FeedOptions"]
      "QueryIterator<AbstractMeta>";
    (* line 936 *)
    mkDecl "readConflicts" []
      [mkParam "collectionLink" false "string"]
      "QueryIterator<AbstractMeta>"
  ].

(** [export interface QueryIterator<TResultRow>] (lines 98-101): its only
    member. *)
Definition QueryIterator : list Decl := [
    mkDecl "toArray" []
      [mkParam "callback" false "(error: QueryError, result: TResultRow[]) => void"]
      "void"
  ].

(** [export interface QueryError] (lines 78-85): its fields. *)
Definition QueryError_fields : list (string * string) :=
  [("code", "number"); ("body", "string")].

(** Helpers on names. *)
Definition lower_ascii (c : ascii) : ascii :=
  let n := nat_of_ascii c in
  if (65 <=? n)%nat && (n <=? 90)%nat then ascii_of_nat (n + 32)%nat else c.

Fixpoint lower (s : string) : string :=
  match s with
  | EmptyString => EmptyString
  | String c s' => String (lower_ascii c) (lower s')
  end.

Fixpoint last_char (s : string) : option ascii :=
  match s with
  | EmptyString => None
  | String c EmptyString => Some c
  | String _ s' => last_char s'
  end.

Definition names (ds : list Decl) : list string := map d_name ds.

(** A query operation ([query...]) or a "read all children" listing
    ([read...s], the plural reads). *)
Definition is_feed_op (d : Decl) : bool :=
  String.prefix "query" (d_name d)
  || (String.prefix "read" (d_name d)
      && match last_char (d_name d) with
         | Some c => Ascii.eqb c "s"%char
         | None => false
         end).

Definition returns_QueryIterator (d : Decl) : bool :=
  String.prefix "QueryIterator<" (d_ret d).

Definition iterator_has_member (m : string) : bool :=
  existsb (fun d => String.eqb (d_name d) m) QueryIterator.

(** The overload takes a [RequestOptions] argument. *)
Definition has_request_options (d : Decl) : bool :=
  existsb (fun p => String.eqb (p_type p) "RequestOptions") (d_params d).

Definition is_replace (d : Decl) : bool := String.prefix "replace" (d_name d).

Definition replace_ops : list Decl := filter is_replace DocumentClient.

End Surface.

(* ------------------------------------------------------------------ *)
(** ** Resource Link Model (spec 4.1, 3, 6) *)
(* ------------------------------------------------------------------ *)

Module Link.

(** Modelled from the spec: the segment types of a resource link and
    their wire keywords (spec 6). *)
Inductive Tag :=
  | Database | Collection | Document | StoredProcedure | Trigger | Udf
  | Attachment | User | Permission | ConflictTag | OfferTag.

Definition keyword (t : Tag) : string :=
  match t with
  | Database => "dbs" | Collection => "colls" | Document => "docs"
  | StoredProcedure => "sprocs" | Trigger => "triggers" | Udf => "udfs"
  | Attachment => "attachments" | User => "users"
  | Permission => "permissions" | ConflictTag => "conflicts"
  | OfferTag => "offers"
  end.

Definition tag_of_keyword (k : string) : option Tag :=
  if String.eqb k "dbs" then Some Database
  else if String.eqb k "colls" then Some Collection
  else if String.eqb k "docs" then Some Document
  else if String.eqb k "sprocs" then Some StoredProcedure
  else if String.eqb k "triggers" then Some Trigger
  else if String.eqb k "udfs" then Some Udf
  else if String.eqb k "attachments" then Some Attachment
  else if String.eqb k "users" then Some User
  else if String.eqb k "permissions" then Some Permission
  else if String.eqb k "conflicts" then Some ConflictTag
  else if String.eqb k "offers" then Some OfferTag
  else None.

(** Modelled from the spec: the fixed containment hierarchy (spec 3):
    database -> collection -> {document, storedProcedure, trigger, udf};
    document -> attachment; database -> {user, permission}.  [None] is the
    root, under which only a database may appear. *)
Definition contains (parent : option Tag) (child : Tag) : bool :=
  match parent, child with
  | None, Database => true
  | Some Database, (Collection | User | Permission) => true
  | Some Collection, (Document | StoredProcedure | Trigger | Udf) => true
  | Some Document, Attachment => true
  | _, _ => false
  end.

(** An immutable ordered sequence of (type, id) segments. *)
Definition ResourceLink := list (Tag * string).

Inductive LinkError := InvalidLinkFormat.

(** The path [a/b/c] as its '/'-separated pieces. *)
Fixpoint split_slash (s : string) : list string :=
  match s with
  | EmptyString => [""]
  | String c rest =>
      let parts := split_slash rest in
      if Ascii.eqb c "/"%char then "" :: parts
      else match parts with
           | p :: ps => String c p :: ps
           | [] => [String c EmptyString]
           end
  end.

Fixpoint pair_segments (parent : option Tag) (segs : list string)
  : ResourceLink + LinkError :=
  match segs with
  | [] => inl []
  | [_] => inr InvalidLinkFormat
  | k :: id :: rest =>
      match tag_of_keyword k with
      | None => inr InvalidLinkFormat
      | Some t =>
          if contains parent t then
            match pair_segments (Some t) rest with
            | inl l => inl ((t, id) :: l)
            | inr e => inr e
            end
          else inr InvalidLinkFormat
      end
  end.

(** Modelled from the spec: [parse(link) -> ResourceLink | error] (4.1):
    odd segment count, unrecognized type tag or a hierarchy violation
    fail with [InvalidLinkFormat]. *)
Definition parse (link : string) : ResourceLink + LinkError :=
  let segs := split_slash link in
  if Nat.odd (length segs) then inr InvalidLinkFormat
  else pair_segments None segs.

(** Modelled from the spec: re-serialization of a link to its wire form
    [<container>/<id>/...] (spec 6). *)
Definition serialize (l : ResourceLink) : string :=
  String.concat "/" (flat_map (fun '(t, id) => [keyword t; id]) l).

(** The type keywords of a segment list: its even positions. *)
Fixpoint type_keywords (segs : list string) : list string :=
  match segs with
  | k :: _ :: rest => k :: type_keywords rest
  | [k] => [k]
  | [] => []
  end.

(** A tag sequence following the containment hierarchy from the root. *)
Fixpoint well_nested (parent : option Tag) (ts : list Tag) : bool :=
  match ts with
  | [] => true
  | t :: ts' => contains parent t && well_nested (Some t) ts'
  end.

(** The three malformations of spec 4.1, stated on the raw string. *)
Definition odd_segment_count (link : string) : Prop :=
  Nat.odd (length (split_slash link)) = true.

Definition unrecognized_tag (link : string) : Prop :=
  exists k, In k (type_keywords (split_slash link)) /\ tag_of_keyword k = None.

Definition violates_hierarchy (link : string) : Prop :=
  exists ts, map tag_of_keyword (type_keywords (split_slash link)) = map Some ts
             /\ well_nested None ts = false.

End Link.

(* ------------------------------------------------------------------ *)
(** ** Request Executor (spec 4.3, 5, 7) *)
(* ------------------------------------------------------------------ *)

Module Exec.

(** The response headers the engine interprets. *)
Record Headers := mkHeaders {
  retry_after : option nat;      (* server-suggested delay, in ms *)
  session_token : option string
}.

(** What the transport collaborator returns for one send (spec 6). *)
Inductive Reply :=
  | HttpReply (status : Z) (headers : Headers) (body : string)
  | TransportError (msg : string).

(** [export interface QueryError] (src/index.d.ts, lines 78-85). *)
Record QueryError := mkQueryError {
  code : Z;
  body : string
}.

(** Modelled from the spec: the error taxonomy of spec 7 as produced by
    the executor ([InvalidLinkFormat] is a separate, local outcome). *)
Inductive Classification :=
  | NotFound | Conflict | PreconditionFailed
  | RateLimited (after : option nat)
  | ServiceUnavailable | TransportFailure | Unclassified.

Section Executor.

Variable Resource : Type.
(** Decoding of a 2xx body into the expected resource shape. *)
Variable decode : string -> Resource.

Inductive Outcome :=
  | Success (r : Resource) (h : Headers)
  | Failure (c : Classification) (e : QueryError)
  | LinkFailure (e : Link.LinkError).

(** Modelled from the spec: classification of one reply (spec 4.3);
    transport failures become a 0-class transient [QueryError]. *)
Definition classify (r : Reply) : Outcome :=
  match r with
  | TransportError msg => Failure TransportFailure (mkQueryError 0 msg)
  | HttpReply st h b =>
      let e := mkQueryError st b in
      if (200 <=? st)%Z && (st <? 300)%Z then Success (decode b) h
      else if (st =? 404)%Z then Failure NotFound e
      else if (st =? 409)%Z then Failure Conflict e
      else if (st =? 412)%Z then Failure PreconditionFailed e
      else if (st =? 429)%Z then Failure (RateLimited (retry_after h)) e
      else if (500 <=? st)%Z && (st <? 600)%Z then Failure ServiceUnavailable e
      else Failure Unclassified e
  end.

End Executor.

Arguments Success {Resource} r h.
Arguments Failure {Resource} c e.
Arguments LinkFailure {Resource} e.
Arguments classify {Resource} decode r.

(** Modelled from the spec: the transient classes retried internally
    ([RateLimited], [ServiceUnavailable], and [TransportFailure], "retried
    under the same policy as ServiceUnavailable", spec 7). *)
Definition retryable (c : Classification) : bool :=
  match c with
  | RateLimited _ | ServiceUnavailable | TransportFailure => true
  | _ => false
  end.

Definition retryable_outcome {R} (o : Outcome R) : bool :=
  match o with
  | Failure c _ => retryable c
  | _ => false
  end.

(** The retry policy: a capped number of retries and an exponential
    backoff base. *)
Record Policy := mkPolicy {
  max_retries : nat;
  backoff_base : nat
}.

(** The wait before the retry that follows attempt [attempt]: the
    server-suggested delay when present, else exponential backoff. *)
Definition delay (p : Policy) (attempt : nat) (c : Classification) : nat :=
  match c with
  | RateLimited (Some t) => t
  | _ => backoff_base p * 2 ^ attempt
  end.

Definition delay_of {R} (p : Policy) (attempt : nat) (o : Outcome R) : nat :=
  match o with
  | Failure c _ => delay p attempt c
  | _ => 0
  end.

Section Loop.

Context {Resource : Type} (decode : string -> Resource) (p : Policy).

(** Modelled from the spec: the retry loop.  [send k] is the transport's
    reply to the [k]-th attempt; [now] is the clock, advanced by each
    wait.  The result is the outcome, the number of sends made and the
    time of return. *)
Fixpoint retry_loop (fuel attempt : nat) (send : nat -> Reply) (now : nat)
  : Outcome Resource * nat * nat :=
  match classify decode (send attempt) with
  | Failure c e =>
      if retryable c then
        match fuel with
        | 0 => (Failure c e, S attempt, now)
        | S fuel' => retry_loop fuel' (S attempt) send (now + delay p attempt c)
        end
      else (Failure c e, S attempt, now)
  | o => (o, S attempt, now)
  end.

Definition execute (send : nat -> Reply) (now : nat) : Outcome Resource * nat * nat :=
  retry_loop (max_retries p) 0 send now.

(** Modelled from the spec: one logical operation on a link; link
    parsing happens before any send (spec 7, "Propagation"). *)
Definition request (link : string) (send : nat -> Reply) (now : nat)
  : Outcome Resource * nat * nat :=
  match Link.parse link with
  | inr e => (LinkFailure e, 0, now)
  | inl _ => execute send now
  end.

(** Total wait over attempts [a .. a+m-1]. *)
Fixpoint waited (send : nat -> Reply) (a m : nat) : nat :=
  match m with
  | 0 => 0
  | S m' => delay_of p a (classify decode (send a)) + waited send (S a) m'
  end.

End Loop.

End Exec.

(* ------------------------------------------------------------------ *)
(** ** Feed Iterator (spec 4.4) *)
(* ------------------------------------------------------------------ *)

Module Feed.

(** [export interface FeedOptions] (src/index.d.ts, lines 2-12). *)
Record FeedOptions := mkFeedOptions {
  maxItemCount : option nat;
  continuation : option string;
  sessionToken : option string
}.

Section Iterator.

Context {Row : Type}.

(** What one executor call on the feed link yields, after the executor's
    own retries: a page with an optional continuation token, or the
    terminal error. *)
Inductive FeedResponse :=
  | FeedPage (rows : list Row) (cont : option string)
  | FeedError (e : Exec.QueryError).

(** Modelled from the spec: the iterator states.  [Fetching] only exists
    during a [next] call, which is atomic here. *)
Inductive IterState :=
  | Ready (cont : option string)
  | Exhausted
  | Failed (e : Exec.QueryError).

Inductive NextResult :=
  | Page (rows : list Row)
  | EndOfSequence
  | Error (e : Exec.QueryError).

Definition initial : IterState := Ready None.

(** Modelled from the spec: one [next()] call with page size [k] and the
    tracker's session token; [exec] is the executor call against the
    fixed feed link.  The third component lists the requests sent. *)
Definition next (k : nat) (session : option string)
  (exec : FeedOptions -> FeedResponse) (st : IterState)
  : NextResult * IterState * list FeedOptions :=
  match st with
  | Ready c =>
      let fo := mkFeedOptions (Some k) c session in
      match exec fo with
      | FeedPage rows (Some c') => (Page rows, Ready (Some c'), [fo])
      | FeedPage rows None => (Page rows, Exhausted, [fo])
      | FeedError e => (Error e, Failed e, [fo])
      end
  | Exhausted => (EndOfSequence, Exhausted, [])
  | Failed e => (Error e, Failed e, [])
  end.

(** [m] successive [next()] calls: their results, the final state and
    all requests sent. *)
Fixpoint run_next (m k : nat) (session : option string)
  (exec : FeedOptions -> FeedResponse) (st : IterState)
  : list NextResult * IterState * list FeedOptions :=
  match m with
  | 0 => ([], st, [])
  | S m' =>
      let '(r, st', io) := next k session exec st in
      let '(rs, st'', io') := run_next m' k session exec st' in
      (r :: rs, st'', app io io')
  end.

(** The pages returned by [next()] until end-of-sequence or an error, at
    most [fuel] calls. *)
Fixpoint collect (fuel k : nat) (session : option string)
  (exec : FeedOptions -> FeedResponse) (st : IterState)
  : list (list Row) * IterState :=
  match fuel with
  | 0 => ([], st)
  | S fuel' =>
      match next k session exec st with
      | (Page rows, st', _) =>
          let '(ps, st'') := collect fuel' k session exec st' in (rows :: ps, st'')
      | (_, st', _) => ([], st')
      end
  end.

(** Modelled from the spec: [drain()], calling [next()] until
    exhaustion. *)
Definition drain (fuel k : nat) (session : option string)
  (exec : FeedOptions -> FeedResponse) : list Row + Exec.QueryError :=
  match collect fuel k session exec initial with
  | (_, Failed e) => inr e
  | (ps, _) => inl (concat ps)
  end.

End Iterator.

Arguments FeedResponse : clear implicits.
Arguments IterState : clear implicits.
Arguments NextResult : clear implicits.

(** Modelled from the spec: a server holding a stable dataset [items]
    and answering each page request with the next [maxItemCount] items,
    returning a continuation token exactly while items remain.  Its
    tokens encode the offset as a run of 'x' characters; the iterator
    never looks inside them. *)
Definition offset_token (n : nat) : string := string_of_list_ascii (repeat "x"%char n).

Definition stable_feed {Row : Type} (items : list Row) (fo : FeedOptions)
  : FeedResponse Row :=
  let off := match continuation fo with Some c => String.length c | None => 0 end in
  let k := match maxItemCount fo with Some k => k | None => length items end in
  FeedPage (firstn k (skipn off items))
           (if Nat.ltb (off + k) (length items) then Some (offset_token (off + k)) else None).

Definition ceil_div (a k : nat) : nat := (a + k - 1) / k.

End Feed.

(* ------------------------------------------------------------------ *)
(** ** Request Option Composer (spec 4.2) *)
(* ------------------------------------------------------------------ *)

Module Options.

(** [accessCondition] of [RequestOptions] (src/index.d.ts, lines 36-43). *)
Record AccessCondition := mkAccessCondition {
  type : string;
  condition : string
}.

(** [export interface RequestOptions] (src/index.d.ts, lines 25-57). *)
Record RequestOptions := mkRequestOptions {
  preTriggerInclude : option string;
  postTriggerInclude : option string;
  accessCondition : option AccessCondition;
  indexingDirective : option string;
  consistencyLevel : option string;
  sessionToken : option string;
  resourceTokenExpirySeconds : option Z;
  disableAutomaticIdGeneration : option bool
}.

Definition no_options : RequestOptions :=
  mkRequestOptions None None None None None None None None.

(** Client-wide defaults, one per option field. *)
Record ClientConfig := mkClientConfig {
  defaults : RequestOptions
}.

Definition pick {A : Type} (call dflt : option A) : option A :=
  match call with
  | Some v => Some v
  | None => dflt
  end.

(** Modelled from the spec: [compose(defaults, perCall)], one level of
    field-by-field override (4.2). *)
Definition compose (cfg : ClientConfig) (perCall : option RequestOptions) : RequestOptions :=
  let d := defaults cfg in
  match perCall with
  | None => d
  | Some o =>
      mkRequestOptions
        (pick (preTriggerInclude o) (preTriggerInclude d))
        (pick (postTriggerInclude o) (postTriggerInclude d))
        (pick (accessCondition o) (accessCondition d))
        (pick (indexingDirective o) (indexingDirective d))
        (pick (consistencyLevel o) (consistencyLevel d))
        (pick (sessionToken o) (sessionToken d))
        (pick (resourceTokenExpirySeconds o) (resourceTokenExpirySeconds d))
        (pick (disableAutomaticIdGeneration o) (disableAutomaticIdGeneration d))
  end.

End Options.

(* ------------------------------------------------------------------ *)
(** ** Consistency/Session Tracker (spec 3, 4.2, 4.3, 4.5) *)
(* ------------------------------------------------------------------ *)

Module Session.

(** Modelled from the spec: the tracker key of a resource, its parent
    collection's link, or its database's link for database-scoped
    resources (4.3). *)
Definition scope_key (l : Link.ResourceLink) : string :=
  match l with
  | d :: (Link.Collection, c) :: _ :: _ => Link.serialize [d; (Link.Collection, c)]
  | d :: _ => Link.serialize [d]
  | [] => ""
  end.

(** Modelled from the spec: [record(resourceKey, token)] and
    [lookup(resourceKey)] on the process-wide mapping; [lookup] is a pure
    map read. *)
Definition record (tr : gmap string string) (key tok : string) : gmap string string :=
  <[key := tok]> tr.

Definition lookup (tr : gmap string string) (key : string) : option string :=
  tr !! key.

(** A response observed by the executor for an operation on a resource. *)
Record Observed := mkObserved {
  obs_link : Link.ResourceLink;
  obs_headers : Exec.Headers
}.

(** Modelled from the spec: every response carrying a session token
    forwards it to the tracker under the resource's scope (4.3). *)
Definition observe (tr : gmap string string) (o : Observed) : gmap string string :=
  match Exec.session_token (obs_headers o) with
  | Some t => record tr (scope_key (obs_link o)) t
  | None => tr
  end.

Definition replay (tr : gmap string string) (trace : list Observed) : gmap string string :=
  fold_left observe trace tr.

(** The token recorded last for [key] along a trace (chronological). *)
Fixpoint last_recorded (key : string) (trace : list Observed) : option string :=
  match trace with
  | [] => None
  | o :: rest =>
      match last_recorded key rest with
      | Some t => Some t
      | None =>
          if String.eqb (scope_key (obs_link o)) key
          then Exec.session_token (obs_headers o) else None
      end
  end.

Definition is_session (lvl : option string) : bool :=
  match lvl with
  | Some l => String.eqb l "Session"
  | None => false
  end.

(** Modelled from the spec: whether a call consults the tracker.  The
    tracker is consulted for reads only, only when the client's configured
    consistency level is session-level (4.5: under stronger or weaker
    levels it is updated but not consulted), and only when the call does
    not request a different level (4.2); with Session configured, that is
    when the composed level is Session as well. *)
Definition consults_tracker (cfg : Options.ClientConfig)
  (perCall : option Options.RequestOptions) (is_read : bool) : bool :=
  is_read && is_session (Options.consistencyLevel (Options.defaults cfg))
  && is_session (Options.consistencyLevel (Options.compose cfg perCall)).

(** Modelled from the spec: the session token header of a call (4.2).
    The session token defaults to the client's configured one, except that
    a call consulting the tracker defaults to the token tracked for its
    scope when one is recorded.  Per-call fields override defaults field by
    field, so an explicit per-call [sessionToken] is kept. *)
Definition session_header (cfg : Options.ClientConfig)
  (perCall : option Options.RequestOptions) (is_read : bool)
  (tr : gmap string string) (R : Link.ResourceLink) : option string :=
  let o := Options.compose cfg perCall in
  let explicit := match perCall with
                  | Some p => Options.sessionToken p
                  | None => None
                  end in
  match explicit with
  | Some t => Some t
  | None =>
      if consults_tracker cfg perCall is_read then
        match lookup tr (scope_key R) with
        | Some t => Some t
        | None => Options.sessionToken o
        end
      else Options.sessionToken o
  end.

End Session.

(* ------------------------------------------------------------------ *)
(** ** The declared interfaces and their members *)
(* ------------------------------------------------------------------ *)

Module Types.

(** A property or method member [name?: type] of an interface; a method
    [m(args): r] is a required member of function type. *)
Record Field := mkField {
  f_name : string;
  f_optional : bool;
  f_type : string
}.

(** [interface name<tparams> extends bases { members }]. *)
Record Iface := mkIface {
  i_name : string;
  i_exported : bool;
  i_tparams : list string;
  i_extends : list string;
  i_fields : list Field
}.

Definition opt (n t : string) : Field := mkField n true t.
Definition req (n t : string) : Field := mkField n false t.

Definition fn_body : string := "(...params: any[]) => void".

(** The interfaces of src/index.d.ts in source order (lines 2-303).  Base
    interfaces are named without their type arguments.  [RequestCallback]
    has only a call signature and no members; the [doc] member of
    [NewDocument] is commented out in the source. *)
Definition Interfaces : list Iface := [
  mkIface "FeedOptions" true [] []
    [opt "maxItemCount" "number"; opt "continuation" "string"; opt "sessionToken" "string"];
  mkIface "MediaOptions" true [] []
    [opt "slug" "string"; opt "contentType" "string"];
  mkIface "RequestOptions" true [] []
    [opt "preTriggerInclude" "string"; opt "postTriggerInclude" "string";
     opt "accessCondition" "{ type: string; condition: string }";
     opt "indexingDirective" "string"; opt "consistencyLevel" "string";
     opt "sessionToken" "string"; opt "resourceTokenExpirySeconds" "number";
     opt "disableAutomaticIdGeneration" "boolean"];
  mkIface "SqlParameter" true [] [] [req "name" "string"; req "value" "any"];
  mkIface "SqlQuerySpec" true [] [] [req "query" "string"; req "parameters" "SqlParameter[]"];
  mkIface "QueryError" true [] [] [req "code" "number"; req "body" "string"];
  mkIface "RequestCallback" true ["TResult"] [] [];
  mkIface "QueryIterator" true ["TResultRow"] []
    [req "toArray" "(callback: (error: QueryError, result: TResultRow[]) => void) => void"];
  mkIface "UniqueId" true [] [] [req "id" "string"];
  mkIface "AbstractMeta" true [] ["UniqueId"]
    [req "_self" "string"; req "_ts" "string"; opt "_rid" "string";
     opt "_etag" "string"; opt "_attachments" "string"];
  mkIface "NewDocument" true ["TContent"] ["UniqueId"] [];
  mkIface "RetrievedDocument" true ["TContent"] ["NewDocument"; "AbstractMeta"] [];
  mkIface "Offer" true [] ["AbstractMeta"] [];
  mkIface "Attachment" true [] ["AbstractMeta"]
    [opt "media" "string"; opt "contentType" "string"];
  mkIface "Conflict" true [] ["AbstractMeta"] [];
  mkIface "Permission" true [] ["AbstractMeta"; "UniqueId"]
    [req "permissionMode" "PermissionMode"; req "resource" "string"];
  mkIface "User" true [] ["AbstractMeta"; "UniqueId"] [];
  mkIface "UserDefinedFunction" true [] ["AbstractMeta"; "UniqueId"]
    [req "userDefinedFunctionType" "string"; req "body" fn_body];
  mkIface "AttachmentMeta" true [] ["AbstractMeta"] [];
  mkIface "CollectionMeta" true [] ["AbstractMeta"] [];
  mkIface "ConflictMeta" true [] ["AbstractMeta"] [];
  mkIface "DatabaseMeta" true [] ["AbstractMeta"] [];
  mkIface "MediaMeta" true [] ["AbstractMeta"] [];
  mkIface "OfferMeta" true [] ["AbstractMeta"] [];
  mkIface "PermissionMeta" true [] ["AbstractMeta"] [];
  mkIface "ProcedureMeta" true [] ["AbstractMeta"] [];
  mkIface "UserMeta" true [] ["AbstractMeta"] [];
  mkIface "UserDefinedFunctionMeta" true [] ["AbstractMeta"] [];
  mkIface "TriggerMeta" true [] ["AbstractMeta"] [];
  mkIface "AuthOptions" true [] []
    [opt "masterKey" "string"; opt "resourceTokens" "any"; opt "permissionFeed" "any[]"];
  mkIface "Procedure" true [] ["UniqueId"] [req "body" fn_body];
  mkIface "Trigger" true [] ["UniqueId"]
    [req "triggerType" "string"; req "triggerOperation" "string"; req "body" fn_body];
  mkIface "Collection" true [] ["UniqueId"] [opt "indexingPolicy" "IndexingPolicy"];
  mkIface "IndexingPath" false [] []
    [req "IndexType" "string"; req "Path" "string";
     req "NumericPrecision" "number"; req "StringPrecision" "number"];
  mkIface "IndexingPolicy" false [] []
    [req "automatic" "boolean"; req "indexingMode" "string";
     req "IncludedPath" "IndexingPath[]"; req "ExcludedPaths" "string[]"]
  ].

Definition find_iface (n : string) : option Iface :=
  find (fun i => String.eqb (i_name i) n) Interfaces.

(** The members of [n] with those it inherits, bases first in [extends]
    order; [fuel] bounds the depth of the [extends] chain. *)
Fixpoint members (fuel : nat) (n : string) : list Field :=
  match fuel with
  | 0 => []
  | S fuel' =>
      match find_iface n with
      | None => []
      | Some i => app (flat_map (members fuel') (i_extends i)) (i_fields i)
      end
  end.

(** A member reached along two inheritance paths is one member. *)
Fixpoint dedup_fields (seen : list string) (fs : list Field) : list Field :=
  match fs with
  | [] => []
  | f :: fs' =>
      if existsb (String.eqb (f_name f)) seen then dedup_fields seen fs'
      else f :: dedup_fields (f_name f :: seen) fs'
  end.

Definition all_members (n : string) : list Field :=
  dedup_fields [] (members (length Interfaces) n).

Definition required (n : string) : list string :=
  map f_name (filter (fun f => negb (f_optional f)) (all_members n)).

Definition mem (x : string) (l : list string) : bool := existsb (String.eqb x) l.

(** [T<A>] to [T]. *)
Fixpoint base_name (s : string) : string :=
  match s with
  | EmptyString => EmptyString
  | String c s' => if Ascii.eqb c "<"%char then EmptyString else String c (base_name s')
  end.

(** [P<A>] to [A] when [s] starts with [P<] and ends with [>]. *)
Fixpoint strip_prefix (p s : string) : option string :=
  match p, s with
  | EmptyString, _ => Some s
  | String c p', String d s' => if Ascii.eqb c d then strip_prefix p' s' else None
  | _, _ => None
  end.

Definition drop_last (s : string) : string :=
  substring 0 (String.length s - 1) s.

Definition type_argument (p s : string) : option string :=
  match strip_prefix (p ++ "<") s with
  | Some rest => Some (drop_last rest)
  | None => None
  end.

End Types.

(* ------------------------------------------------------------------ *)
(** ** Reading the overloads of [DocumentClient] *)
(* ------------------------------------------------------------------ *)

Module Overloads.
Import Surface Types.

#[global] Instance Param_eq_dec : EqDecision Param.
Proof. solve_decision. Defined.

#[global] Instance Field_eq_dec : EqDecision Field.
Proof. solve_decision. Defined.

(** The [callback] parameter of an overload, and its result type [T] in
    [RequestCallback<T>]. *)
Definition callback_param (d : Decl) : option Param :=
  find (fun p => String.eqb (p_name p) "callback") (d_params d).

Definition callback_result (d : Decl) : option string :=
  match callback_param d with
  | Some p => type_argument "RequestCallback" (p_type p)
  | None => None
  end.

(** The row type [T] of a [QueryIterator<T>] result. *)
Definition row_type (d : Decl) : option string := type_argument "QueryIterator" (d_ret d).

Definition is_options_type (t : string) : bool :=
  mem t ["RequestOptions"; "MediaOptions"; "FeedOptions"].

Definition param_types (d : Decl) : list string := map p_type (d_params d).

(** The parameter list without its [i]-th entry. *)
Definition remove_at {A : Type} (i : nat) (l : list A) : list A :=
  app (firstn i l) (skipn (S i) l).

Fixpoint last_opt {A : Type} (l : list A) : option A :=
  match l with
  | [] => None
  | [x] => Some x
  | _ :: l' => last_opt l'
  end.

Definition ends_with (suffix s : string) : bool :=
  (String.length suffix <=? String.length s)%nat
  && String.eqb (substring (String.length s - String.length suffix)
                           (String.length suffix) s) suffix.

(** The resource body an overload sends: its first parameter that is not
    a link string, an options value or the callback. *)
Definition body_param (d : Decl) : option Param :=
  find (fun p => negb (String.eqb (p_type p) "string")
                 && negb (is_options_type (p_type p))
                 && negb (String.eqb (p_name p) "callback")) (d_params d).

Definition method_names : list string :=
  fold_right (fun n acc => if mem n acc then acc else n :: acc) [] (names DocumentClient).

(** Methods none of whose overloads takes [RequestOptions]. *)
Definition without_request_options : list string :=
  filter (fun n => negb (existsb (fun d => String.eqb (d_name d) n
                                         && mem "RequestOptions" (param_types d))
                                 DocumentClient))
         method_names.

(** The [i]-th overload of [DocumentClient], in source order. *)
Definition overload (i : nat) : Decl := nth i DocumentClient (mkDecl "" [] [] "").

(** Operations addressed at the account, with no parent resource. *)
Definition account_ops : list string :=
  ["createDatabase"; "queryDatabases"; "readDatabases"; "readOffers"].

(** Operations whose body type requires the server-assigned [_self] and [_ts]. *)
Definition stamped_body_ops : list string :=
  ["createAttachment"; "createAttachmentAndUploadMedia"; "createPermission";
   "createUser"; "createUserDefinedFunction"; "replaceAttachment"; "replaceOffer";
   "replacePermission"; "replaceUser"; "replaceUserDefinedFunction"].

(** Methods that are neither queries nor listings and still have no
    overload taking [RequestOptions]. *)
Definition no_request_options_ops : list string :=
  ["createAttachmentAndUploadMedia"; "updateMedia"; "readMedia"; "readOffer";
   "replaceOffer"; "replacetrigger"].

(** Methods generic in the document type. *)
Definition generic_ops : list string :=
  ["createDocument"; "replaceDocument"; "readDocument"; "readDocuments";
   "queryDocuments"; "executeStoredProcedure"].

End Overloads.

(* ================================================================== *)
(** * Theorems *)
(* ================================================================== *)

Module SurfaceFacts.
Import Surface.

Lemma forallb_in {A} (f : A -> bool) (l : list A) :
  forallb f l = true -> forall x, In x l -> f x = true.
Proof. intros H x Hx. exact (proj1 (forallb_forall f l) H x Hx). Qed.

(** The predicate [is_feed_op] selects exactly the five query operations
    and the plural listings (both overloads of each). *)
Example feed_ops_listed :
  names (filter is_feed_op DocumentClient) =
  ["queryDatabases"; "queryCollections"; "queryStoredProcedures";
   "queryDocuments"; "queryTriggers";
   "readDatabases"; "readDatabases"; "readCollections"; "readCollections";
   "readDocuments"; "readDocuments"; "readAttachments"; "readAttachments";
   "readUsers"; "readUsers"; "readOffers";
   "readPermissions"; "readPermissions"; "readTriggers"; "readTriggers";
   "readUserDefinedFunctions"; "readUserDefinedFunctions";
   "readStoredProcedures"; "readStoredProcedures";
   "readConflicts"; "readConflicts"].
Proof. vm_compute. reflexivity. Qed.

Example replace_ops_listed :
  map (fun d => (d_name d, has_request_options d)) replace_ops =
  [("replaceAttachment", true); ("replaceAttachment", false);
   ("replaceCollection", true); ("replaceCollection", false);
   ("replaceDocument", true); ("replaceDocument", false);
   ("replaceOffer", false);
   ("replacePermission", true); ("replacePermission", false);
   ("replaceStoredProcedure", true); ("replaceStoredProcedure", false);
   ("replaceTrigger", true); ("replacetrigger", false);
   ("replaceUser", true); ("replaceUser", false);
   ("replaceUserDefinedFunction", true); ("replaceUserDefinedFunction", false)].
Proof. vm_compute. reflexivity. Qed.

(** C7 (as stated): every query or listing operation returns a Feed
    Iterator whose contract offers a per-page [next()] (and a bulk drain).
    Refuted at [queryDatabases] (line 558): the declared [QueryIterator]
    has no [next] member. *)
Lemma feed_contract_counterexample :
  ~ (forall d, In d DocumentClient -> is_feed_op d = true ->
       returns_QueryIterator d = true /\ iterator_has_member "next" = true).
Proof.
  intros H.
  assert (Hin : In (nth 44 DocumentClient (mkDecl "" [] [] "")) DocumentClient).
  { apply nth_In. vm_compute. lia. }
  destruct (H _ Hin) as [_ Hnext].
  - vm_compute. reflexivity.
  - vm_compute in Hnext. discriminate.
Qed.

(** C7 (amended): every query operation and every "read all children"
    listing of [DocumentClient] other than [readOffers] returns a
    [QueryIterator], and the declared [QueryIterator] contract is the single
    bulk member [toArray(callback)] delivering a [QueryError] or the array
    of result rows; no per-page [next()] is declared. *)
Theorem feed_ops_return_QueryIterator :
  (forall d, In d DocumentClient -> is_feed_op d = true ->
     d_name d <> "readOffers" -> returns_QueryIterator d = true)
  /\ names QueryIterator = ["toArray"]
  /\ map p_type (flat_map d_params QueryIterator)
     = ["(error: QueryError, result: TResultRow[]) => void"]
  /\ iterator_has_member "next" = false.
Proof.
  split; [|split; [|split]]; try (vm_compute; reflexivity).
  intros d Hin Hfeed Hname.
  assert (Hall : forallb (fun d => implb (is_feed_op d && negb (String.eqb (d_name d) "readOffers"))
                                         (returns_QueryIterator d)) DocumentClient = true)
    by (vm_compute; reflexivity).
  pose proof (forallb_in _ _ Hall d Hin) as Hd. simpl in Hd.
  rewrite Hfeed in Hd. apply String.eqb_neq in Hname. rewrite Hname in Hd.
  exact Hd.
Qed.

(** C10: [replaceTrigger] has no options-less overload under that name;
    the callback-only variant is declared as [replacetrigger] (line 662),
    whereas every other replace operation declared with and without
    [RequestOptions] uses one name for both overloads. *)
Theorem replaceTrigger_overload_name :
  (forall d, In d DocumentClient -> d_name d = "replaceTrigger" ->
     has_request_options d = true)
  /\ In (mkDecl "replacetrigger" []
           [mkParam "TriggerLink" false "string";
            mkParam "trigger" false "Trigger";
            mkParam "callback" false "RequestCallback<Trigger>"] "void") DocumentClient
  /\ (forall d1 d2, In d1 replace_ops -> In d2 replace_ops ->
        lower (d_name d1) = lower (d_name d2) ->
        has_request_options d1 = true -> has_request_options d2 = false ->
        lower (d_name d1) <> "replacetrigger" ->
        d_name d1 = d_name d2)
  /\ (forall d, In d replace_ops -> lower (d_name d) = "replacetrigger" ->
        (d_name d = "replaceTrigger" /\ has_request_options d = true)
        \/ (d_name d = "replacetrigger" /\ has_request_options d = false)).
Proof.
  split; [|split; [|split]].
  - intros d Hin Hn.
    assert (Hall : forallb (fun d => implb (String.eqb (d_name d) "replaceTrigger")
                                           (has_request_options d)) DocumentClient = true)
      by (vm_compute; reflexivity).
    pose proof (forallb_in _ _ Hall d Hin) as Hd; cbv beta in Hd.
    rewrite Hn in Hd. exact Hd.
  - apply nth_error_In with 61. vm_compute. reflexivity.
  - intros d1 d2 H1 H2 Hl Ho1 Ho2 Hnt.
    assert (Hall : forallb (fun d1 => forallb (fun d2 =>
              implb (String.eqb (lower (d_name d1)) (lower (d_name d2))
                     && has_request_options d1 && negb (has_request_options d2)
                     && negb (String.eqb (lower (d_name d1)) "replacetrigger"))
                    (String.eqb (d_name d1) (d_name d2))) replace_ops) replace_ops = true)
      by (vm_compute; reflexivity).
    pose proof (forallb_in _ _ (forallb_in _ _ Hall d1 H1) d2 H2) as Hd; cbv beta in Hd.
    apply String.eqb_neq in Hnt. rewrite Hnt in Hd.
    rewrite Hl, String.eqb_refl, Ho1, Ho2 in Hd. simpl in Hd.
    apply String.eqb_eq. exact Hd.
  - intros d Hin Hl.
    assert (Hall : forallb (fun d =>
              implb (String.eqb (lower (d_name d)) "replacetrigger")
                    ((String.eqb (d_name d) "replaceTrigger" && has_request_options d)
                     || (String.eqb (d_name d) "replacetrigger" && negb (has_request_options d))))
              replace_ops = true)
      by (vm_compute; reflexivity).
    pose proof (forallb_in _ _ Hall d Hin) as Hd; cbv beta in Hd.
    rewrite Hl in Hd. simpl in Hd.
    apply orb_true_iff in Hd as [Hd | Hd]; apply andb_true_iff in Hd as [Hn Ho];
      apply String.eqb_eq in Hn; [left | right]; split; auto.
    apply negb_true_iff. exact Ho.
Qed.

End SurfaceFacts.

Module LinkFacts.
Import Link.

Example parse_collection_link :
  parse "dbs/d1/colls/c1/docs/doc1"
  = inl [(Database, "d1"); (Collection, "c1"); (Document, "doc1")].
Proof. reflexivity. Qed.

Example parse_doc_under_db :
  parse "dbs/d1/docs/doc1" = inr InvalidLinkFormat.
Proof. reflexivity. Qed.

Lemma split_slash_nonempty (s : string) : split_slash s <> [].
Proof.
  destruct s as [|c s]; simpl; [discriminate|].
  destruct (Ascii.eqb c "/"%char); [discriminate|].
  destruct (split_slash s); discriminate.
Qed.

Lemma concat_cons_char (c : ascii) (p : string) (ps : list string) :
  String.concat "/" (String c p :: ps) = String c (String.concat "/" (p :: ps)).
Proof. destruct ps; reflexivity. Qed.

Lemma concat_split_slash (s : string) : String.concat "/" (split_slash s) = s.
Proof.
  induction s as [|c s IH]; [reflexivity|].
  simpl. destruct (Ascii.eqb c "/"%char) eqn:Hc.
  - apply Ascii.eqb_eq in Hc. subst c.
    destruct (split_slash s) as [|p ps] eqn:Hs.
    + exfalso. exact (split_slash_nonempty s Hs).
    + simpl. rewrite <- IH. reflexivity.
  - destruct (split_slash s) as [|p ps] eqn:Hs.
    + exfalso. exact (split_slash_nonempty s Hs).
    + rewrite concat_cons_char, IH. reflexivity.
Qed.

Lemma keyword_of_tag (k : string) (t : Tag) :
  tag_of_keyword k = Some t -> keyword t = k.
Proof.
  unfold tag_of_keyword.
  repeat match goal with
  | |- (if String.eqb k ?w then _ else _) = _ -> _ =>
      destruct (String.eqb_spec k w) as [->|_]; [intros H; injection H as <-; reflexivity|]
  end.
  discriminate.
Qed.

(** Strong induction on segment lists, two segments at a time. *)
Lemma pair_segments_ok (n : nat) : forall segs parent l,
  length segs <= n ->
  pair_segments parent segs = inl l ->
  flat_map (fun '(t, id) => [keyword t; id]) l = segs
  /\ map tag_of_keyword (type_keywords segs) = map Some (map fst l)
  /\ well_nested parent (map fst l) = true.
Proof.
  induction n as [|n IH]; intros segs parent l Hlen H.
  - destruct segs; [|simpl in Hlen; lia]. simpl in H. injection H as <-.
    repeat split.
  - destruct segs as [|k [|id rest]]; simpl in H.
    + injection H as <-. repeat split.
    + discriminate.
    + destruct (tag_of_keyword k) as [t|] eqn:Hk; [|discriminate].
      destruct (contains parent t) eqn:Hc; [|discriminate].
      destruct (pair_segments (Some t) rest) as [l'|e] eqn:Hr; [|discriminate].
      injection H as <-. simpl in Hlen.
      destruct (IH rest (Some t) l' ltac:(lia) Hr) as (H1 & H2 & H3).
      simpl. rewrite H1, (keyword_of_tag _ _ Hk), Hk, H2, Hc, H3.
      repeat split.
Qed.

Lemma parse_ok (s : string) (l : ResourceLink) :
  parse s = inl l ->
  Nat.odd (length (split_slash s)) = false
  /\ flat_map (fun '(t, id) => [keyword t; id]) l = split_slash s
  /\ map tag_of_keyword (type_keywords (split_slash s)) = map Some (map fst l)
  /\ well_nested None (map fst l) = true.
Proof.
  unfold parse. destruct (Nat.odd (length (split_slash s))) eqn:Ho; [discriminate|].
  intros H. split; [reflexivity|].
  exact (pair_segments_ok (length (split_slash s)) _ _ _ (le_n _) H).
Qed.

Lemma map_Some_inj {A : Type} (xs ys : list A) :
  map Some xs = map Some ys -> xs = ys.
Proof.
  revert ys. induction xs as [|x xs IH]; intros [|y ys] H; try discriminate; auto.
  simpl in H. injection H as -> H. f_equal. auto.
Qed.

Lemma parse_error_is_InvalidLinkFormat (s : string) :
  (forall l, parse s <> inl l) -> parse s = inr InvalidLinkFormat.
Proof.
  intros H. destruct (parse s) as [l|[]]; [|reflexivity].
  exfalso. exact (H l eq_refl).
Qed.

(** C4: for every well-formed link string (one [parse] accepts), parsing
    and then re-serializing the resulting [ResourceLink] gives back the
    identical string. *)
Theorem parse_serialize_roundtrip (s : string) (l : ResourceLink) :
  parse s = inl l -> serialize l = s.
Proof.
  intros H. destruct (parse_ok s l H) as (_ & Hflat & _ & _).
  unfold serialize. rewrite Hflat. apply concat_split_slash.
Qed.

Lemma parse_serialize_roundtrip_witness :
  parse "dbs/d1/colls/c1/docs/doc1/attachments/a1"
    = inl [(Database, "d1"); (Collection, "c1"); (Document, "doc1"); (Attachment, "a1")]
  /\ serialize [(Database, "d1"); (Collection, "c1"); (Document, "doc1"); (Attachment, "a1")]
     = "dbs/d1/colls/c1/docs/doc1/attachments/a1".
Proof.
  split; [reflexivity|].
  apply parse_serialize_roundtrip. reflexivity.
Defined.

End LinkFacts.

Module ExecFacts.
Import Exec.

Definition no_headers : Headers := mkHeaders None None.

Example classify_429 :
  classify (fun b : string => b) (HttpReply 429 (mkHeaders (Some 50) None) "busy")
  = Failure (RateLimited (Some 50)) (mkQueryError 429 "busy").
Proof. reflexivity. Qed.

Section LoopFacts.

Context {Resource : Type} (decode : string -> Resource) (p : Policy).

Lemma retry_loop_spec (fuel : nat) : forall a send now o n t,
  retry_loop decode p fuel a send now = (o, n, t) ->
  a < n <= a + S fuel
  /\ o = classify decode (send (n - 1))
  /\ (forall k, a <= k < n - 1 -> retryable_outcome (classify decode (send k)) = true)
  /\ (retryable_outcome o = true -> n = a + S fuel)
  /\ t = now + waited decode p send a (n - 1 - a).
Proof.
  induction fuel as [|fuel IH]; intros a send now o n t H; simpl in H;
    destruct (classify decode (send a)) as [r h|c e|le] eqn:Hc;
    try destruct (retryable c) eqn:Hr;
    try (injection H as <- <- <-;
         split; [lia|]; split; [replace (S a - 1) with a by lia; symmetry; assumption|];
         split; [intros k Hk; lia|];
         split; [simpl; intros Ho; first [lia | discriminate | rewrite Hr in Ho; discriminate]|];
         replace (S a - 1 - a) with 0 by lia; simpl; lia).
  destruct (IH (S a) send _ o n t H) as (H1 & H2 & H3 & H4 & H5).
  split; [lia|]. split; [exact H2|]. split; [|split].
  - intros k Hk. destruct (Nat.eq_dec k a) as [->|Hne].
    + rewrite Hc. exact Hr.
    + apply H3. lia.
  - intros Ho. rewrite (H4 Ho). lia.
  - rewrite H5. replace (n - 1 - a) with (S (n - 1 - S a)) by lia.
    simpl. rewrite Hc. simpl. lia.
Qed.

End LoopFacts.

Definition is_success {R} (o : Outcome R) : bool :=
  match o with Success _ _ => true | _ => false end.

Definition is_rate_limited {R} (o : Outcome R) : bool :=
  match o with Failure (RateLimited _) _ => true | _ => false end.

Definition cx_policy : Policy := mkPolicy 3 100.

Definition cx_send (k : nat) : Reply :=
  match k with
  | 0 => HttpReply 429 (mkHeaders (Some 50) None) "throttled"
  | _ => HttpReply 404 no_headers "gone"
  end.

(** C2 (as stated): after a 429 with retry-after T, the executor returns
    a success or a [RateLimited] error.  Refuted: a 429 (retry-after 50)
    followed by a 404 on the retry returns [NotFound]. *)
Lemma retry_429_then_404_counterexample :
  execute (fun b : string => b) cx_policy cx_send 0
    = (Failure NotFound (mkQueryError 404 "gone"), 2, 50)
  /\ ~ (forall o n t,
          execute (fun b : string => b) cx_policy cx_send 0 = (o, n, t) ->
          is_success o = true \/ is_rate_limited o = true).
Proof.
  split; [reflexivity|].
  intros H. destruct (H _ _ _ eq_refl) as [Hs|Hs]; discriminate.
Qed.

(** C2 (amended): the executor makes between 1 and [max_retries + 1]
    sends; it continues only past transient classifications
    ([RateLimited], [ServiceUnavailable], [TransportFailure]), waiting
    the server-suggested delay when present and [base * 2^attempt]
    otherwise; it returns the classification of its last send, which is a
    transient error only when the attempt budget is exhausted; and after
    a 429 with retry-after [T] and a budget of at least one retry it does
    not return before [T] has elapsed (the retry's own classification,
    success or error, is what it then returns). *)
Theorem execute_retry_policy {Resource : Type} (decode : string -> Resource)
  (p : Policy) (send : nat -> Reply) (now : nat) o n t :
  execute decode p send now = (o, n, t) ->
  1 <= n <= S (max_retries p)
  /\ o = classify decode (send (n - 1))
  /\ (forall k, k < n - 1 -> retryable_outcome (classify decode (send k)) = true)
  /\ (retryable_outcome o = true -> n = S (max_retries p))
  /\ t = now + waited decode p send 0 (n - 1)
  /\ (forall h b T, send 0 = HttpReply 429 h b -> retry_after h = Some T ->
        1 <= max_retries p -> now + T <= t).
Proof.
  unfold execute. intros H.
  destruct (retry_loop_spec decode p _ 0 send now o n t H) as (H1 & H2 & H3 & H4 & H5).
  rewrite Nat.sub_0_r in H5.
  repeat split; try lia; auto.
  - intros k Hk. apply H3. lia.
  - intros h b T Hs Ht Hm.
    assert (Hc : classify decode (send 0) = Failure (RateLimited (Some T)) (mkQueryError 429 b))
      by (rewrite Hs; simpl; rewrite Ht; reflexivity).
    assert (Hn : 1 < n).
    { destruct (Nat.eq_dec n 1) as [->|]; [|lia].
      exfalso. simpl in H2. rewrite Hc in H2. subst o.
      specialize (H4 eq_refl). lia. }
    rewrite H5. destruct (n - 1) as [|m] eqn:Hm'; [lia|].
    simpl. rewrite Hc. simpl. lia.
Qed.

Lemma execute_retry_policy_witness :
  execute (fun b : string => b) cx_policy cx_send 0
    = (Failure NotFound (mkQueryError 404 "gone"), 2, 50)
  /\ 0 + 50 <= 50.
Proof.
  split; [reflexivity|].
  exact (proj2 (proj2 (proj2 (proj2 (proj2
           (execute_retry_policy (fun b : string => b) cx_policy cx_send 0 _ _ _ eq_refl)))))
           (mkHeaders (Some 50) None) "throttled" 50 eq_refl eq_refl
           ltac:(simpl; lia)).
Defined.

(** C3: classification by status.  2xx is a success carrying the decoded
    body and the response headers; 404, 409, 412, 429 and 5xx give
    [NotFound], [Conflict], [PreconditionFailed], [RateLimited] (with the
    server's retry-after) and [ServiceUnavailable]; every failure of an
    HTTP reply carries a [QueryError] with the reply's status code and raw
    body; and a conditional update whose stale entity tag draws a 412 is
    returned after that single send as [PreconditionFailed], never as a
    success. *)
Theorem classify_by_status {Resource : Type} (decode : string -> Resource)
  (st : Z) (h : Headers) (b : string) :
  ((200 <= st < 300)%Z -> classify decode (HttpReply st h b) = Success (decode b) h)
  /\ (st = 404%Z -> classify decode (HttpReply st h b) = Failure NotFound (mkQueryError st b))
  /\ (st = 409%Z -> classify decode (HttpReply st h b) = Failure Conflict (mkQueryError st b))
  /\ (st = 412%Z ->
        classify decode (HttpReply st h b) = Failure PreconditionFailed (mkQueryError st b))
  /\ (st = 429%Z ->
        classify decode (HttpReply st h b)
        = Failure (RateLimited (retry_after h)) (mkQueryError st b))
  /\ ((500 <= st < 600)%Z ->
        classify decode (HttpReply st h b) = Failure ServiceUnavailable (mkQueryError st b))
  /\ (forall c e, classify decode (HttpReply st h b) = Failure c e ->
        e = mkQueryError st b)
  /\ (forall p send now, send 0 = HttpReply 412 h b ->
        execute decode p send now
        = (Failure PreconditionFailed (mkQueryError 412 b), 1, now)).
Proof.
  unfold classify.
  split; [|split; [|split; [|split; [|split; [|split; [|split]]]]]].
  - intros Hr. replace ((200 <=? st)%Z && (st <? 300)%Z) with true by lia. reflexivity.
  - intros ->. reflexivity.
  - intros ->. reflexivity.
  - intros ->. reflexivity.
  - intros ->. reflexivity.
  - intros Hr.
    replace ((200 <=? st)%Z && (st <? 300)%Z) with false by lia.
    replace ((st =? 404)%Z) with false by lia.
    replace ((st =? 409)%Z) with false by lia.
    replace ((st =? 412)%Z) with false by lia.
    replace ((st =? 429)%Z) with false by lia.
    replace ((500 <=? st)%Z && (st <? 600)%Z) with true by lia.
    reflexivity.
  - intros c e.
    repeat match goal with
    | |- (if ?x then _ else _) = _ -> _ => destruct x
    end; intros He; first [injection He as _ <-; reflexivity | discriminate].
  - intros p send now Hs. unfold execute.
    destruct (max_retries p); simpl; rewrite Hs; reflexivity.
Qed.

Lemma classify_by_status_witness :
  classify (fun b : string => b) (HttpReply 503 no_headers "down")
    = Failure ServiceUnavailable (mkQueryError 503 "down")
  /\ execute (fun b : string => b) cx_policy
       (fun _ => HttpReply 412 no_headers "stale etag") 7
     = (Failure PreconditionFailed (mkQueryError 412 "stale etag"), 1, 7).
Proof.
  split.
  - exact (proj1 (proj2 (proj2 (proj2 (proj2 (proj2
             (classify_by_status (fun b : string => b) 503 no_headers "down"))))))
             ltac:(lia)).
  - exact (proj2 (proj2 (proj2 (proj2 (proj2 (proj2 (proj2
             (classify_by_status (fun b : string => b) 503 no_headers "stale etag")))))))
             cx_policy (fun _ => HttpReply 412 no_headers "stale etag") 7 eq_refl).
Defined.

(** C5: a link string with an odd segment count, an unrecognized type
    tag, or a segment order outside the containment hierarchy fails to
    parse with [InvalidLinkFormat], and a request on it returns that
    error with no send made (the clock untouched). *)
Theorem malformed_link_rejected {Resource : Type} (decode : string -> Resource)
  (p : Policy) (s : string) (send : nat -> Reply) (now : nat) :
  Link.odd_segment_count s \/ Link.unrecognized_tag s \/ Link.violates_hierarchy s ->
  Link.parse s = inr Link.InvalidLinkFormat
  /\ request decode p s send now = (LinkFailure Link.InvalidLinkFormat, 0, now).
Proof.
  intros Hbad.
  assert (Hp : Link.parse s = inr Link.InvalidLinkFormat).
  { apply LinkFacts.parse_error_is_InvalidLinkFormat. intros l Hl.
    destruct (LinkFacts.parse_ok s l Hl) as (Hodd & _ & Hmap & Hwn).
    destruct Hbad as [Hb|[Hb|Hb]].
    - unfold Link.odd_segment_count in Hb. congruence.
    - destruct Hb as (k & Hin & Hk).
      apply (in_map Link.tag_of_keyword) in Hin. rewrite Hmap, Hk in Hin.
      apply in_map_iff in Hin as (x & Hx & _). discriminate.
    - destruct Hb as (ts & Hts & Hw).
      rewrite Hmap in Hts.
      apply LinkFacts.map_Some_inj in Hts. subst ts. congruence. }
  split; [exact Hp|].
  unfold request. rewrite Hp. reflexivity.
Qed.

Lemma malformed_link_rejected_witness :
  Link.parse "dbs/d1/docs/doc1" = inr Link.InvalidLinkFormat
  /\ request (fun b : string => b) cx_policy "dbs/d1/docs/doc1" cx_send 0
     = (LinkFailure Link.InvalidLinkFormat, 0, 0).
Proof.
  apply malformed_link_rejected.
  right. right. exists [Link.Database; Link.Document]. split; reflexivity.
Defined.

End ExecFacts.

Module FeedFacts.
Import Feed.

Example stable_feed_pages :
  collect 10 2 None (stable_feed [1; 2; 3; 4; 5]) initial
  = ([[1; 2]; [3; 4]; [5]], Exhausted).
Proof. reflexivity. Qed.

Lemma length_offset_token (n : nat) : String.length (offset_token n) = n.
Proof. induction n as [|n IH]; simpl; auto. Qed.

Lemma collect_exhausted {Row : Type} fuel k session (exec : FeedOptions -> FeedResponse Row) :
  collect fuel k session exec Exhausted = ([], Exhausted).
Proof. destruct fuel; reflexivity. Qed.

Lemma ceil_div_step (x k : nat) :
  0 < k -> k < x -> ceil_div x k = S (ceil_div (x - k) k) /\ 1 <= ceil_div (x - k) k.
Proof.
  intros Hk Hx. unfold ceil_div. split.
  - replace (x + k - 1) with ((x - k + k - 1) + 1 * k) by lia.
    rewrite Nat.div_add by lia. lia.
  - rewrite <- (Nat.div_same k) at 1 by lia.
    apply Nat.Div0.div_le_mono; lia.
Qed.

Lemma ceil_div_small (x k : nat) : 0 < k -> x <= k -> ceil_div x k <= 1.
Proof.
  intros Hk Hx. unfold ceil_div.
  assert ((x + k - 1) / k < 2); [|lia].
  apply Nat.Div0.div_lt_upper_bound; lia.
Qed.

Lemma ceil_div_pos (x k : nat) : 0 < k -> 0 < x -> 1 <= ceil_div x k.
Proof.
  intros Hk Hx. unfold ceil_div.
  rewrite <- (Nat.div_same k) at 1 by lia.
  apply Nat.Div0.div_le_mono; lia.
Qed.

Lemma stable_feed_at {Row : Type} (items : list Row) (k : nat) c session off :
  match c with Some t => String.length t | None => 0 end = off ->
  stable_feed items (mkFeedOptions (Some k) c session)
  = FeedPage (firstn k (skipn off items))
      (if Nat.ltb (off + k) (length items) then Some (offset_token (off + k)) else None).
Proof. intros <-. reflexivity. Qed.

Section Stable.

Context {Row : Type} (items : list Row) (k : nat) (session : option string).
Hypothesis Hk : 0 < k.

Lemma collect_stable_from (fuel : nat) : forall c off,
  match c with Some t => String.length t | None => 0 end = off ->
  Nat.max 1 (ceil_div (length items - off) k) <= fuel ->
  exists ps, collect fuel k session (stable_feed items) (Ready c) = (ps, Exhausted)
    /\ concat ps = skipn off items
    /\ length ps = Nat.max 1 (ceil_div (length items - off) k).
Proof.
  induction fuel as [|fuel IH]; intros c off Hoff Hfuel; [lia|].
  cbn [collect next]. rewrite (stable_feed_at items k c session off Hoff).
  destruct (Nat.ltb (off + k) (length items)) eqn:Hlt.
  - apply Nat.ltb_lt in Hlt.
    destruct (ceil_div_step (length items - off) k Hk ltac:(lia)) as [Hstep Hpos].
    replace (length items - off - k) with (length items - (off + k)) in * by lia.
    destruct (IH (Some (offset_token (off + k))) (off + k)
                 (length_offset_token _) ltac:(lia)) as (ps & Hc & Hcat & Hlen).
    rewrite Hc. exists (firstn k (skipn off items) :: ps). repeat split.
    + simpl. rewrite Hcat, Nat.add_comm, <- skipn_skipn. apply firstn_skipn.
    + simpl. rewrite Hlen, Hstep. lia.
  - apply Nat.ltb_ge in Hlt. rewrite collect_exhausted.
    exists [firstn k (skipn off items)]. repeat split.
    + simpl. rewrite app_nil_r. apply firstn_all2. rewrite length_skipn. lia.
    + pose proof (ceil_div_small (length items - off) k Hk ltac:(lia)). simpl. lia.
Qed.

End Stable.

(** C1 (as stated): the iterator returns ceil(N/k) pages.  Refuted at
    the empty dataset: the first [next()] still fetches and returns one
    (empty) page before end-of-sequence, while ceil(0/k) = 0. *)
Lemma feed_empty_dataset_counterexample :
  collect 5 1 None (stable_feed (@nil nat)) initial = ([[]], Exhausted)
  /\ length (fst (collect 5 1 None (stable_feed (@nil nat)) initial))
     <> ceil_div (length (@nil nat)) 1.
Proof. split; [reflexivity|]. vm_compute. discriminate. Qed.

(** C1 (amended): against a stable dataset of N items served in pages of
    k > 0 items (a continuation token returned exactly while items
    remain), the iterator, driven until end-of-sequence, returns
    max(1, ceil(N/k)) pages (ceil(N/k) when N > 0, one empty page when
    N = 0), and concatenating them, or draining, reproduces the dataset
    in order. *)
Theorem feed_pages_stable {Row : Type} (items : list Row) (k fuel : nat)
  (session : option string) :
  0 < k -> Nat.max 1 (ceil_div (length items) k) <= fuel ->
  exists ps, collect fuel k session (stable_feed items) initial = (ps, Exhausted)
    /\ length ps = Nat.max 1 (ceil_div (length items) k)
    /\ (0 < length items -> length ps = ceil_div (length items) k)
    /\ concat ps = items
    /\ drain fuel k session (stable_feed items) = inl items.
Proof.
  intros Hk Hfuel.
  destruct (collect_stable_from items k session Hk fuel None 0 eq_refl
              ltac:(rewrite Nat.sub_0_r; exact Hfuel)) as (ps & Hc & Hcat & Hlen).
  rewrite Nat.sub_0_r in Hlen. simpl in Hcat.
  exists ps. repeat split; auto.
  - intros Hn. pose proof (ceil_div_pos (length items) k Hk Hn). lia.
  - unfold drain, initial. rewrite Hc, Hcat. reflexivity.
Qed.

Lemma feed_pages_stable_witness :
  exists ps, collect 3 2 None (stable_feed [10; 20; 30; 40; 50]) initial = (ps, Exhausted)
    /\ length ps = Nat.max 1 (ceil_div 5 2)
    /\ (0 < 5 -> length ps = ceil_div 5 2)
    /\ concat ps = [10; 20; 30; 40; 50]
    /\ drain 3 2 None (stable_feed [10; 20; 30; 40; 50]) = inl [10; 20; 30; 40; 50].
Proof.
  apply (feed_pages_stable [10; 20; 30; 40; 50] 2 3 None); vm_compute; lia.
Defined.

Lemma run_next_failed {Row : Type} (e : Exec.QueryError) (m k : nat) session
  (exec : FeedOptions -> FeedResponse Row) :
  run_next m k session exec (Failed e) = (repeat (Error e) m, Failed e, []).
Proof.
  induction m as [|m IH]; [reflexivity|].
  simpl. rewrite IH. reflexivity.
Qed.

(** C9: a [next()] that moves the iterator to [Failed e] returns exactly
    that error, and from then on every [next()] call, whatever the page
    size, session token or network, returns the same error, stays
    [Failed e] and sends no request. *)
Theorem failed_iterator_terminal {Row : Type} (k : nat) (session : option string)
  (exec : FeedOptions -> FeedResponse Row) (st : IterState)
  (r : NextResult Row) (e : Exec.QueryError) (io : list FeedOptions) :
  next k session exec st = (r, Failed e, io) ->
  r = Error e
  /\ (forall m k' session' (exec' : FeedOptions -> FeedResponse Row),
        run_next m k' session' exec' (Failed e) = (repeat (Error e) m, Failed e, [])).
Proof.
  intros H. split.
  - destruct st as [c| |e0]; simpl in H.
    + destruct (exec _) as [rows [c'|]|e0]; injection H as <- ?; congruence.
    + discriminate.
    + injection H as <- <- _. reflexivity.
  - intros. apply run_next_failed.
Qed.

Definition down : Exec.QueryError := Exec.mkQueryError 503 "down".

Lemma failed_iterator_terminal_witness :
  next 10 None (fun _ => @FeedError nat down) initial
    = (Error down, Failed down, [mkFeedOptions (Some 10) None None])
  /\ run_next 3 10 None (fun _ => FeedPage [1] None) (Failed down)
     = (repeat (Error down) 3, Failed down, []).
Proof.
  split; [reflexivity|].
  exact (proj2 (failed_iterator_terminal 10 None (fun _ => @FeedError nat down) initial
                  (Error down) down _ eq_refl) 3 10 None (fun _ => FeedPage [1] None)).
Defined.

End FeedFacts.

Module OptionsFacts.
Import Options.

Definition cfg_if_match : ClientConfig :=
  mkClientConfig (mkRequestOptions (Some "audit") None
                    (Some (mkAccessCondition "IfMatch" "etag-1"))
                    None (Some "Session") None None None).

Definition call_if_none_match : RequestOptions :=
  mkRequestOptions None None (Some (mkAccessCondition "IfNoneMatch" "etag-2"))
                   None None None None (Some true).

Example compose_wholesale_example :
  compose cfg_if_match (Some call_if_none_match)
  = mkRequestOptions (Some "audit") None (Some (mkAccessCondition "IfNoneMatch" "etag-2"))
                     None (Some "Session") None None (Some true).
Proof. reflexivity. Qed.

(** C6: [compose] overrides the client defaults field by field: each
    field present in the per-call options is taken from them, each
    absent field falls back to the default, an absent options value
    gives the defaults; the conditional header is one of the two input
    values, replaced wholesale when present, never merged. *)
Theorem compose_field_by_field (cfg : ClientConfig) (o : RequestOptions) :
  let c := compose cfg (Some o) in
  let d := defaults cfg in
  preTriggerInclude c
    = match preTriggerInclude o with Some v => Some v | None => preTriggerInclude d end
  /\ postTriggerInclude c
    = match postTriggerInclude o with Some v => Some v | None => postTriggerInclude d end
  /\ accessCondition c
    = match accessCondition o with Some v => Some v | None => accessCondition d end
  /\ indexingDirective c
    = match indexingDirective o with Some v => Some v | None => indexingDirective d end
  /\ consistencyLevel c
    = match consistencyLevel o with Some v => Some v | None => consistencyLevel d end
  /\ sessionToken c
    = match sessionToken o with Some v => Some v | None => sessionToken d end
  /\ resourceTokenExpirySeconds c
    = match resourceTokenExpirySeconds o with
      | Some v => Some v | None => resourceTokenExpirySeconds d end
  /\ disableAutomaticIdGeneration c
    = match disableAutomaticIdGeneration o with
      | Some v => Some v | None => disableAutomaticIdGeneration d end
  /\ compose cfg None = d
  /\ (accessCondition c = accessCondition o \/ accessCondition c = accessCondition d)
  /\ (forall ac, accessCondition o = Some ac -> accessCondition c = Some ac).
Proof.
  destruct cfg as [d], o as [a1 a2 a3 a4 a5 a6 a7 a8]. simpl.
  repeat split.
  - destruct a3; auto.
  - intros ac ->. reflexivity.
Qed.

Lemma compose_field_by_field_witness :
  accessCondition (compose cfg_if_match (Some call_if_none_match))
  = Some (mkAccessCondition "IfNoneMatch" "etag-2").
Proof.
  exact (proj2 (proj2 (proj2 (proj2 (proj2 (proj2 (proj2 (proj2 (proj2 (proj2
           (compose_field_by_field cfg_if_match call_if_none_match))))))))))
           _ eq_refl).
Defined.

End OptionsFacts.

Module SessionFacts.
Import Session.

Lemma lookup_replay (tr : gmap string string) (trace : list Observed) (key : string) :
  lookup (replay tr trace) key
  = match last_recorded key trace with
    | Some t => Some t
    | None => lookup tr key
    end.
Proof.
  revert tr. induction trace as [|o rest IH]; intros tr; [reflexivity|].
  unfold replay in *. simpl. rewrite IH.
  destruct (last_recorded key rest) as [t|]; [reflexivity|].
  unfold observe, lookup, record.
  destruct (Exec.session_token (obs_headers o)) as [t|];
    destruct (String.eqb_spec (scope_key (obs_link o)) key) as [<-|Hne].
  - apply lookup_insert_eq.
  - rewrite lookup_insert_ne by congruence. reflexivity.
  - reflexivity.
  - reflexivity.
Qed.

Lemma last_recorded_app (key : string) (xs ys : list Observed) :
  last_recorded key (app xs ys)
  = match last_recorded key ys with
    | Some t => Some t
    | None => last_recorded key xs
    end.
Proof.
  induction xs as [|x xs IH]; simpl.
  - destruct (last_recorded key ys); reflexivity.
  - rewrite IH. destruct (last_recorded key ys); reflexivity.
Qed.

Definition R1 : Link.ResourceLink :=
  [(Link.Database, "d1"); (Link.Collection, "c1"); (Link.Document, "doc1")].

Definition session_cfg : Options.ClientConfig :=
  Options.mkClientConfig (Options.mkRequestOptions None None None None
                            (Some "Session") None None None).

Definition write_R1 : Observed := mkObserved R1 (Exec.mkHeaders None (Some "t1")).

Definition explicit_old : Options.RequestOptions :=
  Options.mkRequestOptions None None None None None (Some "old") None None.

Definition strong_cfg : Options.ClientConfig :=
  Options.mkClientConfig (Options.mkRequestOptions None None None None
                            (Some "Strong") None None None).

Definition per_call_session : Options.RequestOptions :=
  Options.mkRequestOptions None None None None (Some "Session") None None None.

(** C8 (as stated): every later session-consistency read of R attaches
    the most recently recorded token.  Refuted twice after a write of R
    recorded ["t1"]: a read that is session-consistent only because it
    requests Session per call, on a client configured for Strong
    consistency, does not consult the tracker and attaches no token; and
    a session read carrying its own per-call [sessionToken] keeps it. *)
Lemma explicit_token_counterexample :
  lookup (replay ∅ [write_R1]) (scope_key R1) = Some "t1"
  /\ is_session (Options.consistencyLevel (Options.compose strong_cfg (Some per_call_session)))
     = true
  /\ session_header strong_cfg (Some per_call_session) true (replay ∅ [write_R1]) R1 = None
  /\ is_session (Options.consistencyLevel (Options.compose session_cfg (Some explicit_old)))
     = true
  /\ session_header session_cfg (Some explicit_old) true (replay ∅ [write_R1]) R1
     = Some "old".
Proof. repeat split; reflexivity. Qed.

(** C8 (amended): after an operation on R whose response carried token
    [t], every later read of R
    - attaches the token recorded last for R's scope ([t], or one recorded
      for that scope afterwards) when the client is configured for Session
      consistency, the read's composed level is Session and it carries no
      per-call session token;
    - keeps its own per-call session token when it carries one;
    - attaches its own or the composed default token, whatever the
      tracker holds, when the client is not configured for Session.
    The tracker's [lookup] is a pure map read. *)
Theorem session_read_attaches_latest (cfg : Options.ClientConfig)
  (perCall : option Options.RequestOptions) (tr0 : gmap string string)
  (pre post : list Observed) (R : Link.ResourceLink) (hdrs : Exec.Headers) (t : string) :
  Exec.session_token hdrs = Some t ->
  let tr := replay tr0 (app pre (mkObserved R hdrs :: post)) in
  let explicit := match perCall with Some p => Options.sessionToken p | None => None end in
  (is_session (Options.consistencyLevel (Options.defaults cfg)) = true ->
   is_session (Options.consistencyLevel (Options.compose cfg perCall)) = true ->
   explicit = None ->
   session_header cfg perCall true tr R
   = Some (match last_recorded (scope_key R) post with Some t' => t' | None => t end))
  /\ (forall s, explicit = Some s -> session_header cfg perCall true tr R = Some s)
  /\ (is_session (Options.consistencyLevel (Options.defaults cfg)) = false ->
      forall tr', session_header cfg perCall true tr' R
                  = match explicit with
                    | Some s => Some s
                    | None => Options.sessionToken (Options.compose cfg perCall)
                    end)
  /\ lookup tr (scope_key R) = last_recorded (scope_key R) (app pre (mkObserved R hdrs :: post)).
Proof.
  intros Ht tr explicit.
  assert (Hlast : last_recorded (scope_key R) (app pre (mkObserved R hdrs :: post))
                  = Some (match last_recorded (scope_key R) post with
                          | Some t' => t' | None => t end)).
  { rewrite last_recorded_app. simpl.
    destruct (last_recorded (scope_key R) post); [reflexivity|].
    rewrite String.eqb_refl, Ht. reflexivity. }
  assert (Hlk : lookup tr (scope_key R)
                = last_recorded (scope_key R) (app pre (mkObserved R hdrs :: post))).
  { unfold tr. rewrite lookup_replay, Hlast. reflexivity. }
  split; [|split; [|split]].
  - intros Hcfg Hlvl Hno. unfold session_header, consults_tracker.
    fold explicit. rewrite Hno, Hcfg, Hlvl. simpl.
    rewrite Hlk, Hlast. reflexivity.
  - intros s' Hs. unfold session_header. fold explicit. rewrite Hs. reflexivity.
  - intros Hcfg tr'. unfold session_header, consults_tracker.
    fold explicit. rewrite Hcfg. simpl.
    destruct explicit; reflexivity.
  - exact Hlk.
Qed.

Definition later_R1 : Observed := mkObserved R1 (Exec.mkHeaders None (Some "t2")).

Lemma session_read_attaches_latest_witness :
  session_header session_cfg None true (replay ∅ (app [] (write_R1 :: [later_R1]))) R1
    = Some "t2"
  /\ session_header session_cfg (Some explicit_old) true
       (replay ∅ (app [] (write_R1 :: [later_R1]))) R1 = Some "old"
  /\ lookup (replay ∅ (app [] (write_R1 :: [later_R1]))) (scope_key R1) = Some "t2".
Proof.
  split; [|split].
  - exact (proj1 (session_read_attaches_latest session_cfg None ∅ [] [later_R1] R1
                    (Exec.mkHeaders None (Some "t1")) "t1" eq_refl) eq_refl eq_refl eq_refl).
  - exact (proj1 (proj2 (session_read_attaches_latest session_cfg (Some explicit_old) ∅ []
                           [later_R1] R1 (Exec.mkHeaders None (Some "t1")) "t1" eq_refl))
                 "old" eq_refl).
  - exact (proj2 (proj2 (proj2 (session_read_attaches_latest session_cfg None ∅ [] [later_R1] R1
                                  (Exec.mkHeaders None (Some "t1")) "t1" eq_refl)))).
Defined.

End SessionFacts.

(* ------------------------------------------------------------------ *)
(** ** The declared surface: overloads and interfaces *)
(* ------------------------------------------------------------------ *)

Module SurfaceExtras.
Import Surface Types Overloads.

Lemma all_in {A} (f : A -> bool) (l : list A) :
  forallb f l = true -> forall x, In x l -> f x = true.
Proof. intros H x Hx. exact (proj1 (forallb_forall f l) H x Hx). Qed.

Lemma mem_In (x : string) (l : list string) : mem x l = true <-> In x l.
Proof.
  unfold mem. rewrite existsb_exists. split.
  - intros [y [Hy Heq]]. apply String.eqb_eq in Heq. subst. exact Hy.
  - intros H. exists x. split; [exact H | apply String.eqb_refl].
Qed.

Lemma not_mem_In (x : string) (l : list string) : mem x l = false <-> ~ In x l.
Proof.
  split.
  - intros H Hin. apply mem_In in Hin. congruence.
  - intros H. destruct (mem x l) eqn:E; [|reflexivity].
    exfalso. apply H, mem_In, E.
Qed.

Lemma rev_split {A} (l rps : list A) (p : A) : rev l = p :: rps -> l = app (rev rps) [p].
Proof. intros H. rewrite <- (rev_involutive l), H. reflexivity. Qed.

Lemma overload_in (i : nat) : (i < length DocumentClient)%nat -> In (overload i) DocumentClient.
Proof. apply nth_In. Qed.

Ltac in_client := apply overload_in; vm_compute; lia.

(* The checks below evaluate one boolean test over the whole declared
   surface; each theorem reads its property back from the test. *)

Definition callback_last (d : Decl) : bool :=
  match rev (d_params d) with
  | p :: rps =>
      String.eqb (p_name p) "callback" && String.prefix "RequestCallback<" (p_type p)
      && negb (mem "callback" (map p_name rps)) && String.eqb (d_ret d) "void"
  | [] => false
  end.

Definition iterator_only (d : Decl) : bool :=
  negb (mem "callback" (map p_name (d_params d))) && returns_QueryIterator d.

Lemma shapes_check :
  forallb (fun d => String.eqb (d_name d) "readOffers" || callback_last d || iterator_only d)
          DocumentClient = true.
Proof. vm_compute. reflexivity. Qed.

Definition agree (d1 d2 : Decl) : bool :=
  implb (String.eqb (d_name d1) (d_name d2))
        (String.eqb (d_ret d1) (d_ret d2)
         && bool_decide (callback_result d1 = callback_result d2)
         && bool_decide (d_tparams d1 = d_tparams d2)).

Lemma agree_check : forallb (fun d1 => forallb (agree d1) DocumentClient) DocumentClient = true.
Proof. vm_compute. reflexivity. Qed.

Definition omit_ok (d : Decl) (i : nat) : bool :=
  match nth_error (d_params d) i with
  | Some p =>
      implb (is_options_type (p_type p) && negb (p_optional p))
            (existsb (fun d' => String.eqb (d_name d') (d_name d)
                                && bool_decide (d_params d' = remove_at i (d_params d))
                                && String.eqb (d_ret d') (d_ret d)) DocumentClient)
  | None => true
  end.

Lemma omit_check :
  forallb (fun d => mem (d_name d) ["replaceTrigger"; "readOffers"]
                    || forallb (omit_ok d) (seq 0 (length (d_params d)))) DocumentClient = true.
Proof. vm_compute. reflexivity. Qed.

(** A parameter list as the type checker compares it: optionality and
    type of each position, names aside. *)
Definition signature (ps : list Param) : list (bool * string) :=
  map (fun p => (p_optional p, p_type p)) ps.

Definition trigger_omit_ok (d : Decl) (i : nat) : bool :=
  match nth_error (d_params d) i with
  | Some p =>
      implb (is_options_type (p_type p) && negb (p_optional p))
            (existsb (fun d' => String.eqb (d_name d') "replacetrigger"
                                && bool_decide (signature (d_params d')
                                                = signature (remove_at i (d_params d)))
                                && String.eqb (d_ret d') (d_ret d)) DocumentClient
             && negb (existsb (fun d' => String.eqb (d_name d') "replaceTrigger"
                                         && bool_decide (signature (d_params d')
                                                         = signature (remove_at i (d_params d))))
                              DocumentClient))
  | None => true
  end.

Lemma trigger_omit_check :
  forallb (fun d => implb (String.eqb (d_name d) "replaceTrigger")
                          (forallb (trigger_omit_ok d) (seq 0 (length (d_params d)))))
          DocumentClient = true.
Proof. vm_compute. reflexivity. Qed.

Definition link_first (d : Decl) : bool :=
  match d_params d with
  | p :: _ => String.eqb (p_type p) "string" && negb (p_optional p) && ends_with "Link" (p_name p)
  | [] => false
  end.

Lemma link_check :
  forallb (fun d => if mem (d_name d) account_ops
                    then forallb (fun p => negb (ends_with "Link" (p_name p))) (d_params d)
                    else link_first d) DocumentClient = true.
Proof. vm_compute. reflexivity. Qed.

Definition query_ok (d : Decl) : bool :=
  implb (String.prefix "query" (d_name d))
        (Bool.eqb (mem "FeedOptions" (param_types d))
                  (mem (d_name d) ["queryDocuments"; "queryTriggers"])
         && forallb (fun p => implb (String.eqb (p_type p) "FeedOptions") (p_optional p))
                    (d_params d)
         && bool_decide (elem_of (mkParam "query" false "string | SqlQuerySpec") (d_params d))).

Lemma query_check : forallb query_ok DocumentClient = true.
Proof. vm_compute. reflexivity. Qed.

Definition body_ok (d : Decl) : bool :=
  implb (String.prefix "create" (d_name d) || String.prefix "replace" (d_name d))
        (match body_param d with
         | Some p =>
             let r := required (base_name (p_type p)) in
             (if mem (d_name d) stamped_body_ops
              then mem "_self" r && mem "_ts" r
              else negb (mem "_self" r) && negb (mem "_ts" r))
             && mem "id" r
         | None => false
         end).

Lemma body_check : forallb body_ok DocumentClient = true.
Proof. vm_compute. reflexivity. Qed.

Definition stamped (t : string) : bool :=
  let r := required (base_name t) in mem "id" r && mem "_self" r && mem "_ts" r.

Definition result_ok (d : Decl) : bool :=
  match callback_result d with
  | Some t =>
      String.eqb t "void" || String.eqb t "TDocument"
      || (if mem (d_name d) ["replaceTrigger"; "replacetrigger"]
          then String.eqb t "Trigger"
               && negb (mem "_self" (required t)) && negb (mem "_ts" (required t))
          else stamped t)
  | None => true
  end.

Lemma result_check : forallb result_ok DocumentClient = true.
Proof. vm_compute. reflexivity. Qed.

Definition row_ok (d : Decl) : bool :=
  match row_type d with Some t => stamped t | None => true end.

Lemma row_check : forallb row_ok DocumentClient = true.
Proof. vm_compute. reflexivity. Qed.

Definition delete_link (p : Param) : bool :=
  String.eqb (p_type p) "string" && negb (p_optional p) && ends_with "Link" (p_name p).

Definition void_callback : Param := mkParam "callback" false "RequestCallback<void>".

Definition request_options_param : Param := mkParam "options" false "RequestOptions".

Definition delete_ok (d : Decl) : bool :=
  Bool.eqb (bool_decide (callback_result d = Some "void")) (String.prefix "delete" (d_name d))
  && implb (String.prefix "delete" (d_name d))
           (match d_params d with
            | [l; c] => delete_link l && bool_decide (c = void_callback)
            | [l; o; c] => delete_link l && bool_decide (o = request_options_param)
                           && bool_decide (c = void_callback)
            | _ => false
            end).

Lemma delete_check : forallb delete_ok DocumentClient = true.
Proof. vm_compute. reflexivity. Qed.

Definition has_ro_overload (n : string) : bool :=
  existsb (fun d' => String.eqb (d_name d') n && mem "RequestOptions" (param_types d'))
          DocumentClient.

Lemma ro_check :
  forallb (fun d => Bool.eqb (has_ro_overload (d_name d))
                             (negb (is_feed_op d) && negb (mem (d_name d) no_request_options_ops)))
          DocumentClient = true.
Proof. vm_compute. reflexivity. Qed.

Definition generic_ok (d : Decl) : bool :=
  bool_decide (d_tparams d = [] \/ d_tparams d = ["TDocument"])
  && Bool.eqb (bool_decide (d_tparams d = ["TDocument"])) (mem (d_name d) generic_ops)
  && implb (mem (d_name d) generic_ops)
           (bool_decide (callback_result d = Some "RetrievedDocument<TDocument>"
                         \/ row_type d = Some "RetrievedDocument<TDocument>"
                         \/ callback_result d = Some "TDocument")).

Lemma generic_check : forallb generic_ok DocumentClient = true.
Proof. vm_compute. reflexivity. Qed.

(** X1. Every overload except [readOffers] ends in a [callback] parameter
    of type [RequestCallback<...>], named nowhere else, and returns [void];
    or has no [callback] parameter at all and returns a [QueryIterator<...>]. *)
Theorem overload_shape (d : Decl) (Hd : In d DocumentClient) (Hn : d_name d <> "readOffers") :
  (exists ps p, d_params d = app ps [p] /\ p_name p = "callback"
                /\ String.prefix "RequestCallback<" (p_type p) = true
                /\ ~ In "callback" (map p_name ps) /\ d_ret d = "void")
  \/ (~ In "callback" (map p_name (d_params d))
      /\ String.prefix "QueryIterator<" (d_ret d) = true).
Proof.
  pose proof (all_in _ _ shapes_check d Hd) as H. cbv beta in H.
  apply String.eqb_neq in Hn. rewrite Hn, orb_false_l in H.
  apply orb_true_iff in H. destruct H as [H|H].
  - left. unfold callback_last in H.
    destruct (rev (d_params d)) as [|p rps] eqn:Hr; [discriminate|].
    repeat rewrite andb_true_iff in H. destruct H as [[[H1 H2] H3] H4].
    exists (rev rps), p. repeat split.
    + apply rev_split. exact Hr.
    + apply String.eqb_eq. exact H1.
    + exact H2.
    + rewrite map_rev, <- in_rev. apply not_mem_In. apply negb_true_iff. exact H3.
    + apply String.eqb_eq. exact H4.
  - right. unfold iterator_only, returns_QueryIterator in H.
    apply andb_true_iff in H. destruct H as [H1 H2]. split; [|exact H2].
    apply not_mem_In. apply negb_true_iff. exact H1.
Qed.

Lemma overload_shape_witness :
  d_name (overload 0) = "createAttachment"
  /\ ((exists ps p, d_params (overload 0) = app ps [p] /\ p_name p = "callback"
                    /\ String.prefix "RequestCallback<" (p_type p) = true
                    /\ ~ In "callback" (map p_name ps) /\ d_ret (overload 0) = "void")
      \/ (~ In "callback" (map p_name (d_params (overload 0)))
          /\ String.prefix "QueryIterator<" (d_ret (overload 0)) = true)).
Proof.
  split; [reflexivity|].
  apply overload_shape; [in_client | vm_compute; discriminate].
Defined.

(** X2. Overloads of the same method agree on their type parameters, their
    return type and the result type of their callback: they differ only in
    the parameters they take. *)
Theorem same_name_overloads_agree (d1 d2 : Decl)
  (H1 : In d1 DocumentClient) (H2 : In d2 DocumentClient) (Hn : d_name d1 = d_name d2) :
  d_ret d1 = d_ret d2 /\ callback_result d1 = callback_result d2
  /\ d_tparams d1 = d_tparams d2.
Proof.
  pose proof (all_in _ _ agree_check d1 H1) as H. cbv beta in H.
  pose proof (all_in _ _ H d2 H2) as H'. unfold agree in H'.
  rewrite Hn, String.eqb_refl in H'. cbn [implb] in H'.
  repeat rewrite andb_true_iff in H'. destruct H' as [[Hr Hc] Ht].
  apply String.eqb_eq in Hr. apply bool_decide_eq_true in Hc.
  apply bool_decide_eq_true in Ht. auto.
Qed.

Lemma same_name_overloads_agree_witness :
  d_name (overload 0) = d_name (overload 1)
  /\ d_params (overload 0) <> d_params (overload 1)
  /\ callback_result (overload 0) = Some "AttachmentMeta"
  /\ (d_ret (overload 0) = d_ret (overload 1)
      /\ callback_result (overload 0) = callback_result (overload 1)
      /\ d_tparams (overload 0) = d_tparams (overload 1)).
Proof.
  split; [reflexivity|]. split; [vm_compute; discriminate|]. split; [reflexivity|].
  apply same_name_overloads_agree; [in_client | in_client | reflexivity].
Defined.

(** X3. A required [RequestOptions], [MediaOptions] or [FeedOptions]
    parameter can be left out: the method has another overload with the
    same parameters minus that one and the same return type.  There are
    two exceptions.  For [replaceTrigger] an overload with the remaining
    parameter types and the same return type exists but is spelt
    [replacetrigger], and no [replaceTrigger] overload has those parameter
    types.  [readOffers] has a single overload, which
    requires [FeedOptions]. *)
Theorem options_can_be_omitted :
  (forall (d : Decl) (i : nat) (p : Param),
     In d DocumentClient -> ~ In (d_name d) ["replaceTrigger"; "readOffers"] ->
     nth_error (d_params d) i = Some p ->
     is_options_type (p_type p) = true -> p_optional p = false ->
     exists d', In d' DocumentClient /\ d_name d' = d_name d
                /\ d_params d' = remove_at i (d_params d) /\ d_ret d' = d_ret d)
  /\ (forall (d : Decl) (i : nat) (p : Param),
        In d DocumentClient -> d_name d = "replaceTrigger" ->
        nth_error (d_params d) i = Some p ->
        is_options_type (p_type p) = true -> p_optional p = false ->
        (exists d', In d' DocumentClient /\ d_name d' = "replacetrigger"
                    /\ signature (d_params d') = signature (remove_at i (d_params d))
                    /\ d_ret d' = d_ret d)
        /\ ~ (exists d', In d' DocumentClient /\ d_name d' = "replaceTrigger"
                         /\ signature (d_params d') = signature (remove_at i (d_params d))))
  /\ filter (fun d => String.eqb (d_name d) "readOffers") DocumentClient
     = [mkDecl "readOffers" [] [mkParam "options" false "FeedOptions"] "void"].
Proof.
  split; [|split].
  - intros d i p Hd Hn Hp Ho Hr.
    pose proof (all_in _ _ omit_check d Hd) as H. cbv beta in H.
    apply not_mem_In in Hn. rewrite Hn, orb_false_l in H.
    assert (Hi : In i (seq 0 (length (d_params d)))).
    { apply in_seq. split; [lia|]. apply nth_error_Some. rewrite Hp. discriminate. }
    pose proof (all_in _ _ H i Hi) as Hi'. unfold omit_ok in Hi'.
    rewrite Hp, Ho, Hr in Hi'. cbn [andb negb implb] in Hi'.
    apply existsb_exists in Hi'. destruct Hi' as [d' [Hin Hd']].
    repeat rewrite andb_true_iff in Hd'. destruct Hd' as [[Hn' Hps] Hr'].
    exists d'. repeat split.
    + exact Hin.
    + apply String.eqb_eq. exact Hn'.
    + apply bool_decide_eq_true in Hps. exact Hps.
    + apply String.eqb_eq. exact Hr'.
  - intros d i p Hd Hn Hp Ho Hr.
    pose proof (all_in _ _ trigger_omit_check d Hd) as H. cbv beta in H.
    rewrite Hn, String.eqb_refl in H. cbn [implb] in H.
    assert (Hi : In i (seq 0 (length (d_params d)))).
    { apply in_seq. split; [lia|]. apply nth_error_Some. rewrite Hp. discriminate. }
    pose proof (all_in _ _ H i Hi) as Hi'. unfold trigger_omit_ok in Hi'.
    rewrite Hp, Ho, Hr in Hi'. cbn [andb negb implb] in Hi'.
    apply andb_true_iff in Hi'. destruct Hi' as [Hyes Hno].
    split.
    + apply existsb_exists in Hyes. destruct Hyes as [d' [Hin Hd']].
      repeat rewrite andb_true_iff in Hd'. destruct Hd' as [[Hn' Hps] Hr'].
      exists d'. repeat split.
      * exact Hin.
      * apply String.eqb_eq. exact Hn'.
      * apply bool_decide_eq_true in Hps. exact Hps.
      * apply String.eqb_eq. exact Hr'.
    + intros [d' [Hin [Hn' Hps]]]. apply negb_true_iff in Hno.
      assert (Hex : existsb (fun d' => String.eqb (d_name d') "replaceTrigger"
                                       && bool_decide (signature (d_params d')
                                                       = signature (remove_at i (d_params d))))
                            DocumentClient = true).
      { apply existsb_exists. exists d'. split; [exact Hin|].
        rewrite Hn', String.eqb_refl. apply bool_decide_eq_true_2. exact Hps. }
      congruence.
  - vm_compute. reflexivity.
Qed.

Lemma options_can_be_omitted_witness :
  d_name (overload 0) = "createAttachment"
  /\ nth_error (d_params (overload 0)) 2 = Some (mkParam "options" false "RequestOptions")
  /\ (exists d', In d' DocumentClient /\ d_name d' = d_name (overload 0)
                 /\ d_params d' = remove_at 2 (d_params (overload 0))
                 /\ d_ret d' = d_ret (overload 0))
  /\ d_name (overload 60) = "replaceTrigger"
  /\ nth_error (d_params (overload 60)) 2 = Some (mkParam "options" false "RequestOptions")
  /\ ((exists d', In d' DocumentClient /\ d_name d' = "replacetrigger"
                  /\ signature (d_params d') = signature (remove_at 2 (d_params (overload 60)))
                  /\ d_ret d' = d_ret (overload 60))
      /\ ~ (exists d', In d' DocumentClient /\ d_name d' = "replaceTrigger"
                       /\ signature (d_params d')
                          = signature (remove_at 2 (d_params (overload 60))))).
Proof.
  split; [reflexivity|]. split; [reflexivity|]. split.
  - apply (proj1 options_can_be_omitted (overload 0) 2 (mkParam "options" false "RequestOptions"));
      [in_client | vm_compute; intros [H|[H|[]]]; discriminate H | reflexivity
      | reflexivity | reflexivity].
  - split; [reflexivity|]. split; [reflexivity|].
    apply (proj1 (proj2 options_can_be_omitted) (overload 60) 2
             (mkParam "options" false "RequestOptions"));
      [in_client | reflexivity | reflexivity | reflexivity | reflexivity].
Defined.

(** X4. Apart from the account-level operations [createDatabase],
    [queryDatabases], [readDatabases] and [readOffers], every overload takes
    as its first parameter a required [string] whose name ends in [Link];
    the account-level ones take no parameter named [...Link] at all. *)
Theorem link_parameter_first (d : Decl) (Hd : In d DocumentClient) :
  (In (d_name d) account_ops ->
     forall p, In p (d_params d) -> ends_with "Link" (p_name p) = false)
  /\ (~ In (d_name d) account_ops ->
      exists p rest, d_params d = p :: rest /\ p_type p = "string"
                     /\ p_optional p = false /\ ends_with "Link" (p_name p) = true).
Proof.
  pose proof (all_in _ _ link_check d Hd) as H. cbv beta in H.
  split.
  - intros Ha q Hq. apply mem_In in Ha. rewrite Ha in H.
    pose proof (all_in _ _ H q Hq) as Hq'. cbv beta in Hq'.
    apply negb_true_iff. exact Hq'.
  - intros Ha. apply not_mem_In in Ha. rewrite Ha in H. unfold link_first in H.
    destruct (d_params d) as [|q rest]; [discriminate|].
    repeat rewrite andb_true_iff in H. destruct H as [[Ht Ho] Hl].
    exists q, rest. split; [reflexivity|]. split; [apply String.eqb_eq; exact Ht|].
    split; [apply negb_true_iff; exact Ho | exact Hl].
Qed.

Lemma link_parameter_first_witness :
  d_name (overload 0) = "createAttachment"
  /\ ((In (d_name (overload 0)) account_ops ->
         forall p, In p (d_params (overload 0)) -> ends_with "Link" (p_name p) = false)
      /\ (~ In (d_name (overload 0)) account_ops ->
          exists p rest, d_params (overload 0) = p :: rest /\ p_type p = "string"
                         /\ p_optional p = false /\ ends_with "Link" (p_name p) = true)).
Proof.
  split; [reflexivity|].
  apply link_parameter_first. in_client.
Defined.

(** X5. Among the query operations only [queryDocuments] and
    [queryTriggers] accept [FeedOptions], and there it is optional; every
    query operation takes a required [query] of type
    [string | SqlQuerySpec]. *)
Theorem query_feed_options (d : Decl) (Hd : In d DocumentClient)
  (Hq : String.prefix "query" (d_name d) = true) :
  (In "FeedOptions" (param_types d) <-> In (d_name d) ["queryDocuments"; "queryTriggers"])
  /\ (forall p, In p (d_params d) -> p_type p = "FeedOptions" -> p_optional p = true)
  /\ In (mkParam "query" false "string | SqlQuerySpec") (d_params d).
Proof.
  pose proof (all_in _ _ query_check d Hd) as H. unfold query_ok in H.
  rewrite Hq in H. cbn [implb] in H.
  repeat rewrite andb_true_iff in H. destruct H as [[He Hf] Hm].
  split; [|split].
  - apply eqb_prop in He. rewrite <- !mem_In, He. reflexivity.
  - intros p Hp Ht. pose proof (all_in _ _ Hf p Hp) as Hp'. cbv beta in Hp'.
    rewrite Ht in Hp'. exact Hp'.
  - apply bool_decide_eq_true in Hm. apply list_elem_of_In. exact Hm.
Qed.

Lemma query_feed_options_witness :
  d_name (overload 47) = "queryDocuments"
  /\ ((In "FeedOptions" (param_types (overload 47))
       <-> In (d_name (overload 47)) ["queryDocuments"; "queryTriggers"])
      /\ (forall p, In p (d_params (overload 47)) -> p_type p = "FeedOptions" -> p_optional p = true)
      /\ In (mkParam "query" false "string | SqlQuerySpec") (d_params (overload 47))).
Proof.
  split; [reflexivity|].
  apply query_feed_options; [in_client | reflexivity].
Defined.

(** X6. Every member of [FeedOptions], [MediaOptions], [RequestOptions] and
    [AuthOptions] is optional, and each of them has members; every member
    of [SqlParameter], [SqlQuerySpec] and [QueryError] is required. *)
Theorem option_bags_optional :
  (forall n, In n ["FeedOptions"; "MediaOptions"; "RequestOptions"; "AuthOptions"] ->
     all_members n <> [] /\ forall f, In f (all_members n) -> f_optional f = true)
  /\ (forall n, In n ["SqlParameter"; "SqlQuerySpec"; "QueryError"] ->
        all_members n <> [] /\ forall f, In f (all_members n) -> f_optional f = false).
Proof.
  split; intros n Hn;
    repeat (destruct Hn as [<-|Hn]; [split; [vm_compute; discriminate|];
                                     intros f Hf; vm_compute in Hf;
                                     repeat (destruct Hf as [<-|Hf]; [reflexivity|]);
                                     destruct Hf|]);
    destruct Hn.
Qed.

(** X7. [AbstractMeta] has, with what it inherits from [UniqueId], the
    required members [id], [_self], [_ts] and the optional [_rid], [_etag],
    [_attachments]; every [...Meta] interface, and [RetrievedDocument],
    [Offer] and [Conflict], has exactly these members. *)
Theorem meta_members :
  all_members "AbstractMeta"
    = [req "id" "string"; req "_self" "string"; req "_ts" "string";
       opt "_rid" "string"; opt "_etag" "string"; opt "_attachments" "string"]
  /\ forall i, In i Interfaces ->
       ends_with "Meta" (i_name i) = true
       \/ In (i_name i) ["RetrievedDocument"; "Offer"; "Conflict"] ->
       all_members (i_name i) = all_members "AbstractMeta".
Proof.
  split; [vm_compute; reflexivity|].
  intros i Hi Hm.
  assert (Hc : forallb (fun i => implb (ends_with "Meta" (i_name i)
                                        || mem (i_name i) ["RetrievedDocument"; "Offer"; "Conflict"])
                                       (bool_decide (all_members (i_name i)
                                                     = all_members "AbstractMeta")))
                       Interfaces = true) by (vm_compute; reflexivity).
  pose proof (all_in _ _ Hc i Hi) as H. cbv beta in H.
  assert (Hb : ends_with "Meta" (i_name i)
               || mem (i_name i) ["RetrievedDocument"; "Offer"; "Conflict"] = true).
  { destruct Hm as [Hm|Hm]; [rewrite Hm; reflexivity|].
    apply mem_In in Hm. rewrite Hm. apply orb_true_r. }
  rewrite Hb in H. cbn [implb] in H. apply bool_decide_eq_true in H. exact H.
Qed.

(** X8. The body of every create and replace overload requires [id].  It
    requires both of the server-assigned [_self] and [_ts] for the
    attachment, permission, user, user-defined-function and offer
    operations, and neither of them for the database, collection,
    document, stored-procedure and trigger operations. *)
Theorem body_requirements (d : Decl) (Hd : In d DocumentClient)
  (Hc : String.prefix "create" (d_name d) = true \/ String.prefix "replace" (d_name d) = true) :
  exists p, body_param d = Some p
    /\ In "id" (required (base_name (p_type p)))
    /\ (In (d_name d) stamped_body_ops ->
        In "_self" (required (base_name (p_type p)))
        /\ In "_ts" (required (base_name (p_type p))))
    /\ (~ In (d_name d) stamped_body_ops ->
        ~ In "_self" (required (base_name (p_type p)))
        /\ ~ In "_ts" (required (base_name (p_type p)))).
Proof.
  pose proof (all_in _ _ body_check d Hd) as H. unfold body_ok in H.
  assert (Hb : String.prefix "create" (d_name d) || String.prefix "replace" (d_name d) = true).
  { destruct Hc as [Hc|Hc]; rewrite Hc; [reflexivity | apply orb_true_r]. }
  rewrite Hb in H. cbn [implb] in H.
  destruct (body_param d) as [p|]; [|discriminate].
  cbv zeta in H. apply andb_true_iff in H. destruct H as [He Hi].
  exists p. split; [reflexivity|]. split; [apply mem_In; exact Hi|]. split.
  - intros Hs. apply mem_In in Hs. rewrite Hs in He.
    apply andb_true_iff in He. destruct He as [H1 H2].
    split; apply mem_In; assumption.
  - intros Hs. apply not_mem_In in Hs. rewrite Hs in He.
    apply andb_true_iff in He. destruct He as [H1 H2].
    split; apply not_mem_In, negb_true_iff; assumption.
Qed.

Lemma body_requirements_witness :
  d_name (overload 16) = "createUser" /\ d_name (overload 4) = "createCollection"
  /\ (exists p, body_param (overload 16) = Some p
       /\ In "id" (required (base_name (p_type p)))
       /\ (In (d_name (overload 16)) stamped_body_ops ->
           In "_self" (required (base_name (p_type p)))
           /\ In "_ts" (required (base_name (p_type p))))
       /\ (~ In (d_name (overload 16)) stamped_body_ops ->
           ~ In "_self" (required (base_name (p_type p)))
           /\ ~ In "_ts" (required (base_name (p_type p)))))
  /\ (exists p, body_param (overload 4) = Some p
       /\ In "id" (required (base_name (p_type p)))
       /\ (In (d_name (overload 4)) stamped_body_ops ->
           In "_self" (required (base_name (p_type p)))
           /\ In "_ts" (required (base_name (p_type p))))
       /\ (~ In (d_name (overload 4)) stamped_body_ops ->
           ~ In "_self" (required (base_name (p_type p)))
           /\ ~ In "_ts" (required (base_name (p_type p))))).
Proof.
  split; [reflexivity|]. split; [reflexivity|]. split.
  - apply body_requirements; [in_client | left; reflexivity].
  - apply body_requirements; [in_client | left; reflexivity].
Defined.

Lemma stamped_incl (t : string) :
  stamped t = true -> incl ["id"; "_self"; "_ts"] (required (base_name t)).
Proof.
  unfold stamped. cbv zeta. intros H.
  repeat rewrite andb_true_iff in H. destruct H as [[Hi Hs] Ht].
  intros x [<-|[<-|[<-|[]]]]; apply mem_In; assumption.
Qed.

(** X9. For the result type [T] of every [RequestCallback<T>] other than
    [void] and the caller's [TDocument]: for [replaceTrigger] and
    [replacetrigger], [T] is [Trigger], which requires neither [_self]
    nor [_ts]; for every other operation [T] requires [id], [_self] and
    [_ts]. *)
Theorem callback_results_stamped (d : Decl) (T : string) (Hd : In d DocumentClient)
  (Hr : callback_result d = Some T) (Hv : T <> "void") (Ht : T <> "TDocument") :
  (In (d_name d) ["replaceTrigger"; "replacetrigger"] ->
     T = "Trigger" /\ ~ In "_self" (required T) /\ ~ In "_ts" (required T))
  /\ (~ In (d_name d) ["replaceTrigger"; "replacetrigger"] ->
      incl ["id"; "_self"; "_ts"] (required (base_name T))).
Proof.
  pose proof (all_in _ _ result_check d Hd) as H. unfold result_ok in H.
  rewrite Hr in H. apply String.eqb_neq in Hv, Ht. rewrite Hv, Ht in H.
  cbn [orb] in H. split.
  - intros Hn. apply mem_In in Hn. rewrite Hn in H.
    repeat rewrite andb_true_iff in H. destruct H as [[HT Hs] Hts].
    apply String.eqb_eq in HT. subst T.
    split; [reflexivity|].
    split; apply not_mem_In, negb_true_iff; assumption.
  - intros Hn. apply not_mem_In in Hn. rewrite Hn in H.
    apply stamped_incl. exact H.
Qed.

Lemma callback_results_stamped_witness :
  callback_result (overload 60) = Some "Trigger"
  /\ callback_result (overload 0) = Some "AttachmentMeta"
  /\ ((In (d_name (overload 60)) ["replaceTrigger"; "replacetrigger"] ->
       "Trigger" = "Trigger" /\ ~ In "_self" (required "Trigger") /\ ~ In "_ts" (required "Trigger"))
      /\ (~ In (d_name (overload 60)) ["replaceTrigger"; "replacetrigger"] ->
          incl ["id"; "_self"; "_ts"] (required (base_name "Trigger"))))
  /\ ((In (d_name (overload 0)) ["replaceTrigger"; "replacetrigger"] ->
       "AttachmentMeta" = "Trigger" /\ ~ In "_self" (required "AttachmentMeta")
       /\ ~ In "_ts" (required "AttachmentMeta"))
      /\ (~ In (d_name (overload 0)) ["replaceTrigger"; "replacetrigger"] ->
          incl ["id"; "_self"; "_ts"] (required (base_name "AttachmentMeta")))).
Proof.
  split; [reflexivity|]. split; [reflexivity|]. split.
  - apply callback_results_stamped; [in_client | reflexivity | discriminate | discriminate].
  - apply callback_results_stamped; [in_client | reflexivity | discriminate | discriminate].
Defined.

(** X10. Every row type [T] of a [QueryIterator<T>] requires [id], [_self]
    and [_ts]. *)
Theorem iterator_rows_stamped (d : Decl) (T : string) (Hd : In d DocumentClient)
  (Hr : row_type d = Some T) :
  incl ["id"; "_self"; "_ts"] (required (base_name T)).
Proof.
  pose proof (all_in _ _ row_check d Hd) as H. unfold row_ok in H.
  rewrite Hr in H. apply stamped_incl. exact H.
Qed.

Lemma iterator_rows_stamped_witness :
  row_type (overload 47) = Some "RetrievedDocument<TDocument>"
  /\ incl ["id"; "_self"; "_ts"] (required (base_name "RetrievedDocument<TDocument>")).
Proof.
  split; [reflexivity|].
  apply (iterator_rows_stamped (overload 47)); [in_client | reflexivity].
Defined.

(** X11. An overload's callback delivers [void] exactly when it is a
    delete.  A delete takes a required [string] link whose name ends in
    [Link], then optionally [options: RequestOptions], then
    [callback: RequestCallback<void>], and nothing else. *)
Theorem deletes_return_void (d : Decl) (Hd : In d DocumentClient) :
  (callback_result d = Some "void" <-> String.prefix "delete" (d_name d) = true)
  /\ (String.prefix "delete" (d_name d) = true ->
      exists l, ends_with "Link" l = true
        /\ (d_params d = [mkParam l false "string";
                          mkParam "callback" false "RequestCallback<void>"]
            \/ d_params d = [mkParam l false "string"; mkParam "options" false "RequestOptions";
                             mkParam "callback" false "RequestCallback<void>"])).
Proof.
  pose proof (all_in _ _ delete_check d Hd) as H. unfold delete_ok in H.
  apply andb_true_iff in H. destruct H as [He Hp].
  apply eqb_prop in He. split.
  - rewrite <- He. split; [apply bool_decide_eq_true_2 | apply bool_decide_eq_true_1].
  - intros Hx. rewrite Hx in Hp. cbn [implb] in Hp.
    destruct (d_params d) as [|[ln lo lt] [|c [|o [|c' rest]]]]; try discriminate Hp.
    + unfold delete_link in Hp. cbn [p_name p_optional p_type] in Hp.
      repeat rewrite andb_true_iff in Hp. destruct Hp as [[[Ht Ho] Hl] Hc].
      apply String.eqb_eq in Ht. apply negb_true_iff in Ho.
      apply bool_decide_eq_true in Hc. subst. exists ln. split; [exact Hl|].
      left. reflexivity.
    + unfold delete_link in Hp. cbn [p_name p_optional p_type] in Hp.
      repeat rewrite andb_true_iff in Hp. destruct Hp as [[[[Ht Ho] Hl] Hop] Hc].
      apply String.eqb_eq in Ht. apply negb_true_iff in Ho.
      apply bool_decide_eq_true in Hop. apply bool_decide_eq_true in Hc. subst.
      exists ln. split; [exact Hl|]. right. reflexivity.
Qed.

Lemma deletes_return_void_witness :
  d_name (overload 28) = "deleteDocument"
  /\ ((callback_result (overload 28) = Some "void"
       <-> String.prefix "delete" (d_name (overload 28)) = true)
      /\ (String.prefix "delete" (d_name (overload 28)) = true ->
          exists l, ends_with "Link" l = true
            /\ (d_params (overload 28) = [mkParam l false "string";
                                          mkParam "callback" false "RequestCallback<void>"]
                \/ d_params (overload 28) = [mkParam l false "string";
                                             mkParam "options" false "RequestOptions";
                                             mkParam "callback" false "RequestCallback<void>"]))).
Proof.
  split; [reflexivity|].
  apply deletes_return_void. in_client.
Defined.

(** X12. A method has an overload taking [RequestOptions] exactly when it
    is neither a query nor a listing ([is_feed_op]) nor one of
    [createAttachmentAndUploadMedia], [updateMedia], [readMedia],
    [readOffer], [replaceOffer] and [replacetrigger]. *)
Theorem request_options_coverage (d : Decl) (Hd : In d DocumentClient) :
  (exists d', In d' DocumentClient /\ d_name d' = d_name d
              /\ In "RequestOptions" (param_types d'))
  <-> is_feed_op d = false /\ ~ In (d_name d) no_request_options_ops.
Proof.
  pose proof (all_in _ _ ro_check d Hd) as H. cbv beta in H.
  apply eqb_prop in H. unfold has_ro_overload in H.
  rewrite <- not_mem_In, <- !negb_true_iff, <- andb_true_iff, <- H, existsb_exists.
  split.
  - intros [d' [Hin [Hn Hr]]]. exists d'. split; [exact Hin|].
    rewrite Hn, String.eqb_refl. apply mem_In. exact Hr.
  - intros [d' [Hin Hb]]. apply andb_true_iff in Hb. destruct Hb as [Hn Hr].
    exists d'. split; [exact Hin|]. split; [apply String.eqb_eq; exact Hn|].
    apply mem_In. exact Hr.
Qed.

Lemma request_options_coverage_witness :
  d_name (overload 77) = "readOffer"
  /\ ((exists d', In d' DocumentClient /\ d_name d' = d_name (overload 77)
                  /\ In "RequestOptions" (param_types d'))
      <-> is_feed_op (overload 77) = false
          /\ ~ In (d_name (overload 77)) no_request_options_ops).
Proof.
  split; [reflexivity|].
  apply request_options_coverage. in_client.
Defined.

(** X13. The only type parameter any overload declares is [TDocument], and
    exactly the overloads of [createDocument], [replaceDocument],
    [readDocument], [readDocuments], [queryDocuments] and
    [executeStoredProcedure] declare it; each of them delivers a
    [RetrievedDocument<TDocument>], through its callback or its iterator,
    or a bare [TDocument]. *)
Theorem generic_overloads (d : Decl) (Hd : In d DocumentClient) :
  (d_tparams d = [] \/ d_tparams d = ["TDocument"])
  /\ (d_tparams d = ["TDocument"] <-> In (d_name d) generic_ops)
  /\ (In (d_name d) generic_ops ->
      callback_result d = Some "RetrievedDocument<TDocument>"
      \/ row_type d = Some "RetrievedDocument<TDocument>"
      \/ callback_result d = Some "TDocument").
Proof.
  pose proof (all_in _ _ generic_check d Hd) as H. unfold generic_ok in H.
  repeat rewrite andb_true_iff in H. destruct H as [[H1 H2] H3].
  apply bool_decide_eq_true in H1. apply eqb_prop in H2.
  split; [exact H1|]. split.
  - rewrite <- mem_In, <- H2. split; [apply bool_decide_eq_true_2 | apply bool_decide_eq_true_1].
  - intros Hg. apply mem_In in Hg. rewrite Hg in H3. cbn [implb] in H3.
    apply bool_decide_eq_true in H3. exact H3.
Qed.

Lemma generic_overloads_witness :
  d_name (overload 42) = "executeStoredProcedure"
  /\ ((d_tparams (overload 42) = [] \/ d_tparams (overload 42) = ["TDocument"])
      /\ (d_tparams (overload 42) = ["TDocument"] <-> In (d_name (overload 42)) generic_ops)
      /\ (In (d_name (overload 42)) generic_ops ->
          callback_result (overload 42) = Some "RetrievedDocument<TDocument>"
          \/ row_type (overload 42) = Some "RetrievedDocument<TDocument>"
          \/ callback_result (overload 42) = Some "TDocument")).
Proof.
  split; [reflexivity|].
  apply generic_overloads. in_client.
Defined.

End SurfaceExtras.
